(** * DataHub metadata ingestion: change proposals, work units, checkpoints

    A shallow embedding of the Python modules
    - [datahub/emitter/serialization_helper.py]
    - [datahub/emitter/mcp.py]
    - [datahub/ingestion/api/workunit.py]
    - [datahub/ingestion/extractor/mce_extractor.py]
    - [datahub/ingestion/source/pulsar.py] (stale entity removal)
    - [datahub/api/entities/dataprocess/dataprocess_instance.py] ([_emit_mcp])
    - [datahub/ingestion/graph/client.py] ([get_latest_timeseries_value])
    together with the properties stated about them.

    Conventions.  A Python [str] is a [string] holding its UTF-8 encoding,
    [bytes] is a [list byte], a number is an integer, a [dict] with string
    keys is an association list in insertion order, [None]-able values are
    [option]s, and a call that may raise returns a [result]. *)

From Stdlib Require Import Strings.Byte Strings.Ascii NArith.
From stdpp Require Import gmap strings list.

Local Set Warnings "-register-all,-clear-no-such-hyp".

Local Open Scope string_scope.

(** ** Exceptions and the error monad *)

Inductive exn : Type :=
| KeyError
| TypeError
| UnicodeDecodeError
| AssertionError
| IndexError
| AttributeError (msg : string)
| ValueError (msg : string)
| OperationalError (msg : string).

Inductive result (A : Type) : Type :=
| Ok (a : A)
| Raise (e : exn).
Arguments Ok {A} a.
Arguments Raise {A} e.

Definition bind {A B : Type} (m : result A) (k : A → result B) : result B :=
  match m with
  | Ok a => k a
  | Raise e => Raise e
  end.

Notation "'do' x <- m ; k" := (bind m (fun x => k))
  (at level 10, x name, m at level 100, k at level 200).

(** ** Strings: [str.startswith] and [str.replace(old, new, 1)] *)

Fixpoint startswith (s p : string) {struct p} : bool :=
  match p, s with
  | EmptyString, _ => true
  | String _ _, EmptyString => false
  | String a p', String b s' => if Ascii.eqb a b then startswith s' p' else false
  end.

Fixpoint drop_chars (n : nat) (s : string) : string :=
  match n, s with
  | O, _ => s
  | S _, EmptyString => EmptyString
  | S n', String _ s' => drop_chars n' s'
  end.

(** [replace_first old new s] is Python's [s.replace(old, new, 1)]: the
    leftmost occurrence of [old] is replaced, and [s] is returned unchanged
    when there is none. *)
Fixpoint replace_first (old new s : string) : string :=
  if startswith s old then new +:+ drop_chars (String.length old) s
  else match s with
       | EmptyString => EmptyString
       | String c s' => String c (replace_first old new s')
       end.

(** ** Bytes: [bytes.decode()] (strict UTF-8) *)

Definition byte_in (lo hi : N) (b : byte) : bool :=
  (lo <=? Byte.to_N b)%N && (Byte.to_N b <=? hi)%N.

Definition utf8_tail : byte → bool := byte_in 128 191.

(** Well-formed UTF-8 byte sequences: no overlong forms, no surrogates,
    nothing above U+10FFFF. *)
Fixpoint utf8_valid (bs : list byte) : bool :=
  match bs with
  | [] => true
  | b0 :: r0 =>
    if byte_in 0 127 b0 then utf8_valid r0 else
    match r0 with
    | [] => false
    | b1 :: r1 =>
      if byte_in 194 223 b0 then utf8_tail b1 && utf8_valid r1 else
      match r1 with
      | [] => false
      | b2 :: r2 =>
        if byte_in 224 239 b0 then
          (if byte_in 224 224 b0 then byte_in 160 191 b1
           else if byte_in 237 237 b0 then byte_in 128 159 b1
           else utf8_tail b1)
          && utf8_tail b2 && utf8_valid r2
        else
        match r2 with
        | [] => false
        | b3 :: r3 =>
          if byte_in 240 244 b0 then
            (if byte_in 240 240 b0 then byte_in 144 191 b1
             else if byte_in 244 244 b0 then byte_in 128 143 b1
             else utf8_tail b1)
            && utf8_tail b2 && utf8_tail b3 && utf8_valid r3
          else false
        end
      end
    end
  end.

Definition bytes_decode (bs : list byte) : result string :=
  if utf8_valid bs then Ok (String.string_of_list_byte bs) else Raise UnicodeDecodeError.

(** ** JSON-like Python objects *)

Inductive json : Type :=
| JNull
| JBool (b : bool)
| JNum (n : Z)
| JStr (s : string)
| JBytes (bs : list byte)
| JList (items : list json)
| JDict (entries : list (string * json)).

Definition is_null (j : json) : bool :=
  match j with JNull => true | _ => false end.

Definition dict_keys (d : list (string * json)) : list string := d.*1.

Definition dict_has (k : string) (d : list (string * json)) : bool :=
  existsb (String.eqb k) (dict_keys d).

Fixpoint dict_get (k : string) (d : list (string * json)) : option json :=
  match d with
  | [] => None
  | (k', v) :: rest => if String.eqb k' k then Some v else dict_get k rest
  end.

(** ** Induction over nested structures *)

Section json_induction.
Variable P : json → Prop.
Hypothesis Hnull : P JNull.
Hypothesis Hbool : ∀ b, P (JBool b).
Hypothesis Hnum : ∀ n, P (JNum n).
Hypothesis Hstr : ∀ s, P (JStr s).
Hypothesis Hbytes : ∀ bs, P (JBytes bs).
Hypothesis Hlist : ∀ l, Forall P l → P (JList l).
Hypothesis Hdict : ∀ d, Forall (fun kv => P kv.2) d → P (JDict d).

Fixpoint json_nested_ind (x : json) : P x :=
  match x with
  | JNull => Hnull
  | JBool b => Hbool b
  | JNum n => Hnum n
  | JStr s => Hstr s
  | JBytes bs => Hbytes bs
  | JList l =>
    Hlist l ((fix go (xs : list json) : Forall P xs :=
                match xs with
                | [] => Forall_nil_2 P
                | y :: ys => Forall_cons_2 P y ys (json_nested_ind y) (go ys)
                end) l)
  | JDict d =>
    Hdict d ((fix go (kvs : list (string * json)) : Forall (fun kv => P kv.2) kvs :=
                match kvs with
                | [] => Forall_nil_2 _
                | kv :: rest =>
                  Forall_cons_2 (fun kv => P kv.2) kv rest (json_nested_ind kv.2) (go rest)
                end) d)
  end.
End json_induction.

(** ** serialization_helper.py *)

Module serialization_helper.

Section traversal.
(** The recursive call of [_json_transform], with both patterns fixed. *)
Variable recur : json → result json.

(** [obj[field]] followed by the recursive call on the value found. *)
Fixpoint subscript (field : string) (kvs : list (string * json)) : result json :=
  match kvs with
  | [] => Raise KeyError
  | (k, value) :: rest =>
    if String.eqb k field then recur value else subscript field rest
  end.

(** The loop [for key, value in obj.items(): if value is not None: ...]. *)
Fixpoint items (kvs : list (string * json)) : result (list (string * json)) :=
  match kvs with
  | [] => Ok []
  | (key, value) :: rest =>
    if is_null value then items rest
    else
      do v <- recur value;
      do r <- items rest;
      Ok ((key, v) :: r)
  end.

(** The comprehension [[_json_transform(item, ...) for item in obj]]. *)
Fixpoint each (xs : list json) : result (list json) :=
  match xs with
  | [] => Ok []
  | item :: rest =>
    do v <- recur item;
    do r <- each rest;
    Ok (v :: r)
  end.

(** The part of the [dict] branch after the single-key test. *)
Definition discriminated_or_generic (d : list (string * json)) : result json :=
  if dict_has "fieldDiscriminator" d then
    (* field = obj["fieldDiscriminator"]; {field: transform(obj[field])} *)
    match dict_get "fieldDiscriminator" d with
    | Some (JStr field) =>
      do v <- subscript field d;
      Ok (JDict [(field, v)])
    | Some (JList _) | Some (JDict _) => Raise TypeError
    | _ => Raise KeyError
    end
  else
    do new_obj <- items d;
    Ok (JDict new_obj).
End traversal.

(** [_json_transform].  The three [dict] branches are, in order: a
    single-key mapping whose key starts with [from_pattern] (tagged union);
    a mapping with a [fieldDiscriminator] key; the generic loop that skips
    [None] values. *)
Fixpoint _json_transform (obj : json) (from_pattern to_pattern : string) {struct obj}
  : result json :=
  let recur := fun o => _json_transform o from_pattern to_pattern in
  match obj with
  | JDict d =>
    match d with
    | [(key, value)] =>
      if startswith key from_pattern then
        do v <- _json_transform value from_pattern to_pattern;
        Ok (JDict [(replace_first from_pattern to_pattern key, v)])
      else discriminated_or_generic recur d
    | _ => discriminated_or_generic recur d
    end
  | JList l =>
    do new_obj <- each recur l;
    Ok (JList new_obj)
  | JBytes bs => do s <- bytes_decode bs; Ok (JStr s)
  | _ => Ok obj
  end.

Definition pre_json_transform (obj : json) : result json :=
  _json_transform obj "com.linkedin.pegasus2avro." "com.linkedin.".

Definition post_json_transform (obj : json) : result json :=
  _json_transform obj "com.linkedin." "com.linkedin.pegasus2avro.".

End serialization_helper.

(** ** Generators

    A Python generator run to its end: the items it yielded, in order, and
    the exception that ended it, if any. *)

Record generated (A : Type) : Type := Generated {
  yielded : list A;
  raised : option exn
}.
Arguments Generated {A} yielded raised.
Arguments yielded {A} g.
Arguments raised {A} g.

(** ** Generated schema classes (datahub.metadata.schema_classes) *)

Module schema_classes.

(** An [avrogen] [DictWrapper]: an opaque, validate-able payload with a
    structural rendering [to_obj()]. *)
Record DictWrapper : Type := {
  to_obj : json;
  validate : bool
}.

Record GenericAspectClass : Type := {
  value : list byte;
  contentType : string
}.

Record SystemMetadataClass : Type := {
  lastObserved : Z;
  runId : string
}.

Record KafkaAuditHeaderClass : Type := { header : json }.

Definition ChangeTypeClass_UPSERT : string := "UPSERT".

Record MetadataChangeProposalClass : Type := {
  entityType : string;
  entityUrn : option string;
  entityKeyAspect : option GenericAspectClass;
  changeType : string;
  auditHeader : option KafkaAuditHeaderClass;
  aspectName : option string;
  aspect : option GenericAspectClass;
  systemMetadata : option SystemMetadataClass
}.

Record Snapshot : Type := {
  urn : string;
  aspects : list DictWrapper
}.

Record MetadataChangeEvent : Type := {
  proposedSnapshot : Snapshot;
  mce_systemMetadata : option SystemMetadataClass
}.

(** Modelled from the spec: the generated class [StatusClass] is not among
    the sources; it is the payload of the [status] aspect, whose one field
    [removed] marks the entity as soft-deleted. *)
Definition StatusClass (removed : bool) : DictWrapper :=
  {| to_obj := JDict [("removed", JBool removed)]; validate := true |}.

End schema_classes.

(** ** emitter/mcp.py *)

Module mcp.
Import serialization_helper.

Record MetadataChangeProposalWrapper : Type := {
  entityType : string;
  changeType : string;
  entityUrn : option string;
  entityKeyAspect : option schema_classes.DictWrapper;
  auditHeader : option schema_classes.KafkaAuditHeaderClass;
  aspectName : option string;
  aspect : option schema_classes.DictWrapper;
  systemMetadata : option schema_classes.SystemMetadataClass
}.

Section serialize.
(** [json.dumps], and the schema check [validate()] of the generated
    [MetadataChangeProposalClass]. *)
Variable json_dumps : json → string.
Variable proposal_validate : schema_classes.MetadataChangeProposalClass → bool.

Definition _make_generic_aspect (codegen_obj : schema_classes.DictWrapper)
  : result schema_classes.GenericAspectClass :=
  do transformed <- pre_json_transform (schema_classes.to_obj codegen_obj);
  let serialized := json_dumps transformed in
  Ok {| schema_classes.value := String.list_byte_of_string serialized;
        schema_classes.contentType := "application/json" |}.

Definition make_mcp (self : MetadataChangeProposalWrapper)
  : result schema_classes.MetadataChangeProposalClass :=
  do serializedEntityKeyAspect <-
    match entityKeyAspect self with
    | Some k => do g <- _make_generic_aspect k; Ok (Some g)
    | None => Ok None
    end;
  do serializedAspect <-
    match aspect self with
    | Some a => do g <- _make_generic_aspect a; Ok (Some g)
    | None => Ok None
    end;
  Ok {| schema_classes.entityType := entityType self;
        schema_classes.entityUrn := entityUrn self;
        schema_classes.entityKeyAspect := serializedEntityKeyAspect;
        schema_classes.changeType := changeType self;
        schema_classes.auditHeader := auditHeader self;
        schema_classes.aspectName := aspectName self;
        schema_classes.aspect := serializedAspect;
        schema_classes.systemMetadata := systemMetadata self |}.

Definition is_none {A : Type} (o : option A) : bool :=
  match o with None => true | Some _ => false end.

(** [aspect.validate()] of an optional payload that is present. *)
Definition fails_validate (o : option schema_classes.DictWrapper) : bool :=
  match o with
  | Some a => negb (schema_classes.validate a)
  | None => false
  end.

Definition validate (self : MetadataChangeProposalWrapper) : result bool :=
  if is_none (entityUrn self) && is_none (entityKeyAspect self) then Ok false
  else if negb (is_none (entityUrn self)) && negb (is_none (entityKeyAspect self))
  then Ok false
  else if fails_validate (entityKeyAspect self) then Ok false
  else if fails_validate (aspect self) then Ok false
  else
    do m <- make_mcp self;
    if negb (proposal_validate m) then Ok false else Ok true.
End serialize.

End mcp.

(** ** ingestion/api/workunit.py *)

Module workunit.

Inductive Metadata : Type :=
| MCE (mce : schema_classes.MetadataChangeEvent)
| MCP_raw (mcp_raw : schema_classes.MetadataChangeProposalClass)
| MCPW (mcp : mcp.MetadataChangeProposalWrapper).

Record MetadataWorkUnit : Type := {
  id : string;
  metadata : Metadata;
  treat_errors_as_warnings : bool
}.

(** Truth value of an optional payload: [None] is false, an instance of
    one of the three payload classes is true. *)
Definition truthy {A : Type} (v : option A) : bool :=
  match v with Some _ => true | None => false end.

Definition one_if (b : bool) : nat := if b then 1 else 0.

(** [MetadataWorkUnit.__init__].  When none of the three branches assigns
    [self.metadata] the instance is left without that attribute; the test
    on the sum excludes it ([init_sets_metadata] below). *)
Definition MetadataWorkUnit__init__
    (id : string)
    (mce : option schema_classes.MetadataChangeEvent)
    (mcp : option mcp.MetadataChangeProposalWrapper)
    (mcp_raw : option schema_classes.MetadataChangeProposalClass)
    (treat_errors_as_warnings : bool) : result MetadataWorkUnit :=
  if negb (one_if (truthy mce) + one_if (truthy mcp) + one_if (truthy mcp_raw) =? 1)%nat
  then Raise (ValueError "exactly one of mce, mcp, or mcp_raw must be provided")
  else
    match mcp_raw with
    | Some r =>
      if truthy mce || truthy mcp then Raise AssertionError
      else Ok {| id := id; metadata := MCP_raw r;
                 treat_errors_as_warnings := treat_errors_as_warnings |}
    | None =>
      match mce, mcp with
      | Some e, None =>
        Ok {| id := id; metadata := MCE e;
              treat_errors_as_warnings := treat_errors_as_warnings |}
      | None, Some w =>
        Ok {| id := id; metadata := MCPW w;
              treat_errors_as_warnings := treat_errors_as_warnings |}
      | _, _ => Raise (AttributeError "metadata")
      end
    end.

Record UsageStatsWorkUnit : Type := {
  usage_id : string;
  usageStats : schema_classes.DictWrapper
}.

End workunit.

(** ** ingestion/extractor/mce_extractor.py *)

Module mce_extractor.
Import workunit.

Inductive WorkUnit : Type :=
| IsMetadataWorkUnit (w : MetadataWorkUnit)
| IsUsageStatsWorkUnit (w : UsageStatsWorkUnit)
| IsOtherWorkUnit (type_name : string).

Inductive Record_ : Type :=
| MetadataRecord (m : Metadata)
| UsageRecord (u : schema_classes.DictWrapper).

Record RecordEnvelope : Type := {
  record : Record_;
  envelope_metadata : list (string * string)
}.

Record PipelineContext : Type := {
  run_id : string;
  pipeline_name : option string
}.

(** [workunit.metadata.systemMetadata = ...] on each of the three classes. *)
Definition set_systemMetadata (m : Metadata) (sm : schema_classes.SystemMetadataClass)
  : Metadata :=
  match m with
  | MCE e =>
    MCE {| schema_classes.proposedSnapshot := schema_classes.proposedSnapshot e;
           schema_classes.mce_systemMetadata := Some sm |}
  | MCP_raw p =>
    MCP_raw {| schema_classes.entityType := schema_classes.entityType p;
               schema_classes.entityUrn := schema_classes.entityUrn p;
               schema_classes.entityKeyAspect := schema_classes.entityKeyAspect p;
               schema_classes.changeType := schema_classes.changeType p;
               schema_classes.auditHeader := schema_classes.auditHeader p;
               schema_classes.aspectName := schema_classes.aspectName p;
               schema_classes.aspect := schema_classes.aspect p;
               schema_classes.systemMetadata := Some sm |}
  | MCPW w =>
    MCPW {| mcp.entityType := mcp.entityType w;
            mcp.changeType := mcp.changeType w;
            mcp.entityUrn := mcp.entityUrn w;
            mcp.entityKeyAspect := mcp.entityKeyAspect w;
            mcp.auditHeader := mcp.auditHeader w;
            mcp.aspectName := mcp.aspectName w;
            mcp.aspect := mcp.aspect w;
            mcp.systemMetadata := Some sm |}
  end.

Section extractor.
Variable json_dumps : json → string.
Variable proposal_validate : schema_classes.MetadataChangeProposalClass → bool.
(** [validate()] of the generated [MetadataChangeEvent], and the rendering
    [str(...)] (reformatted by [black] when it is installed) used in the
    error messages. *)
Variable event_validate : schema_classes.MetadataChangeEvent → bool.
Variable render_metadata : Metadata → string.
Variable render_usage : schema_classes.DictWrapper → string.
(** [get_sys_time()]. *)
Variable now : Z.

Definition metadata_validate (m : Metadata) : result bool :=
  match m with
  | MCE e => Ok (event_validate e)
  | MCP_raw p => Ok (proposal_validate p)
  | MCPW w => mcp.validate json_dumps proposal_validate w
  end.

(** [get_records]: the work unit as the call leaves it (its metadata is
    stamped in place) and what the generator produced. *)
Definition get_records (ctx : PipelineContext) (workunit : WorkUnit)
  : WorkUnit * generated RecordEnvelope :=
  match workunit with
  | IsMetadataWorkUnit w =>
    let stamped :=
      set_systemMetadata (metadata w)
        {| schema_classes.lastObserved := now; schema_classes.runId := run_id ctx |} in
    let w' := {| id := id w; metadata := stamped;
                 treat_errors_as_warnings := treat_errors_as_warnings w |} in
    let empty_mce :=
      match stamped with
      | MCE e =>
        (length (schema_classes.aspects (schema_classes.proposedSnapshot e)) =? 0)%nat
      | _ => false
      end in
    (IsMetadataWorkUnit w',
     if empty_mce
     then Generated [] (Some (AttributeError "every mce must have at least one aspect"))
     else
       match metadata_validate stamped with
       | Raise e => Generated [] (Some e)
       | Ok false =>
         Generated []
           (Some (ValueError ("source produced an invalid metadata work unit: "
                              +:+ render_metadata stamped)))
       | Ok true =>
         Generated [ {| record := MetadataRecord stamped;
                        envelope_metadata := [("workunit_id", id w)] |} ] None
       end)
  | IsUsageStatsWorkUnit w =>
    (workunit,
     if negb (schema_classes.validate (usageStats w))
     then Generated []
            (Some (ValueError ("source produced an invalid usage stat: "
                               +:+ render_usage (usageStats w))))
     else Generated [ {| record := UsageRecord (usageStats w);
                         envelope_metadata := [("workunit_id", usage_id w)] |} ] None)
  | IsOtherWorkUnit type_name =>
    (workunit, Generated [] (Some (ValueError ("unknown WorkUnit type " +:+ type_name))))
  end.
End extractor.

End mce_extractor.

(** [re.split("[...]", s)] for a class of single characters: [s] is cut
    at every character of the class, and adjacent cuts leave empty parts. *)
Fixpoint re_split_class (in_class : Ascii.ascii → bool) (s : string) : list string :=
  match s with
  | EmptyString => [EmptyString]
  | String c s' =>
    if in_class c then EmptyString :: re_split_class in_class s'
    else match re_split_class in_class s' with
         | [] => [String c EmptyString]
         | part :: parts => String c part :: parts
         end
  end.

(** ** ingestion/source/pulsar.py: stale entity removal *)

Module pulsar.
Import workunit.

Record StatefulIngestionConfig : Type := {
  enabled : bool;
  remove_stale_metadata : bool
}.

Record PulsarSourceConfig : Type := {
  stateful_ingestion : option StatefulIngestionConfig;
  platform_instance : option string
}.

Record KafkaCheckpointState : Type := {
  topic_urns : gset string
}.

(** Modelled from the spec: [KafkaCheckpointState.get_topic_urns_not_in] is
    not among the sources; it is the operation "urns present in self but
    absent from other", a set difference iterated in no particular order. *)
Definition get_topic_urns_not_in (self other : KafkaCheckpointState) : list string :=
  elements (topic_urns self ∖ topic_urns other).

Record Checkpoint : Type := {
  job_name : string;
  pipeline_name : string;
  platform_instance_id : string;
  run_id : string;
  config : PulsarSourceConfig;
  state : option KafkaCheckpointState
}.

Section source.
(** The source report and its two recording methods. *)
Variable Report : Type.
Variable report_workunit : MetadataWorkUnit → Report → Report.
Variable report_stale_entity_soft_deleted : string → Report → Report.

Definition soft_delete_dataset (report : Report) (urn type : string)
  : Report * generated MetadataWorkUnit :=
  let mcp :=
    {| mcp.entityType := "dataset";
       mcp.changeType := schema_classes.ChangeTypeClass_UPSERT;
       mcp.entityUrn := Some urn;
       mcp.entityKeyAspect := None;
       mcp.auditHeader := None;
       mcp.aspectName := Some "status";
       mcp.aspect := Some (schema_classes.StatusClass true);
       mcp.systemMetadata := None |} in
  match MetadataWorkUnit__init__ ("soft-delete-" +:+ type +:+ "-" +:+ urn)
          None (Some mcp) None false with
  | Raise e => (report, Generated [] (Some e))
  | Ok wu =>
    (report_stale_entity_soft_deleted urn (report_workunit wu report),
     Generated [wu] None)
  end.

(** [for x in xs: yield from body(x)], stopping at the first exception. *)
Fixpoint yield_from_each {A B : Type} (body : Report → A → Report * generated B)
    (report : Report) (xs : list A) : Report * generated B :=
  match xs with
  | [] => (report, Generated [] None)
  | x :: rest =>
    let '(report1, g) := body report x in
    match raised g with
    | Some e => (report1, g)
    | None =>
      let '(report2, g') := yield_from_each body report1 rest in
      (report2, Generated (yielded g ++ yielded g') (raised g'))
    end
  end.

(** [gen_removed_entity_workunits], given what [get_last_checkpoint] and
    [get_current_checkpoint] returned. *)
Definition gen_removed_entity_workunits (config : PulsarSourceConfig) (report : Report)
    (last_checkpoint cur_checkpoint : option Checkpoint)
  : Report * generated MetadataWorkUnit :=
  match stateful_ingestion config, last_checkpoint, cur_checkpoint with
  | Some si, Some last, Some cur =>
    match remove_stale_metadata si, state last, state cur with
    | true, Some last_checkpoint_state, Some cur_checkpoint_state =>
      yield_from_each (fun r topic_urn => soft_delete_dataset r topic_urn "topic")
        report (get_topic_urns_not_in last_checkpoint_state cur_checkpoint_state)
    | _, _, _ => (report, Generated [] None)
    end
  | _, _, _ => (report, Generated [] None)
  end.
End source.

(** *** PulsarTopic *)

Record PulsarTopic : Type := {
  fullname : string;
  type : string;
  tenant : string;
  namespace : string;
  topic : string
}.

(** The character class ["[: /]"]. *)
Definition topic_separator (c : Ascii.ascii) : bool :=
  Ascii.eqb c ":" || Ascii.eqb c " " || Ascii.eqb c "/".

(** [list[i]]. *)
Definition subscript_list {A : Type} (l : list A) (i : nat) : result A :=
  match l !! i with
  | Some x => Ok x
  | None => Raise IndexError
  end.

Definition PulsarTopic__init__ (topic : string) : result PulsarTopic :=
  let topic_parts := re_split_class topic_separator topic in
  do type <- subscript_list topic_parts 0;
  do tenant <- subscript_list topic_parts 3;
  do namespace <- subscript_list topic_parts 4;
  do name <- subscript_list topic_parts 5;
  Ok {| fullname := topic; type := type; tenant := tenant;
        namespace := namespace; topic := name |}.

(** *** Checkpointing *)

(** The values the [and] chain of [is_checkpointing_enabled] ranges over. *)
Inductive pyval : Type :=
| PyStr (s : string)
| PyBool (b : bool)
| PyNone
| PyConfig (c : StatefulIngestionConfig).

Definition pyval_truthy (v : pyval) : bool :=
  match v with
  | PyStr s => negb (String.eqb s "")
  | PyBool b => b
  | PyNone => false
  | PyConfig _ => true
  end.

(** [a and b], with [b] evaluated only when [a] is true. *)
Definition py_and (a : pyval) (b : unit → pyval) : pyval :=
  if pyval_truthy a then b tt else a.

(** [job_id == v] for a [str] on the left: a string equals only an equal
    string. *)
Definition str_eq_pyval (job_id : string) (v : pyval) : bool :=
  match v with
  | PyStr s => String.eqb job_id s
  | _ => false
  end.

Definition get_default_ingestion_job_id : string := "ingest_from_pulsar_source".

(** [is_checkpointing_enabled]: the comparison applies to the value of the
    whole parenthesised [and] chain.  [is_stateful_ingestion_configured]
    is what the base class answers. *)
Definition is_checkpointing_enabled (is_stateful_ingestion_configured : bool)
    (config : PulsarSourceConfig) (job_id : string) : bool :=
  str_eq_pyval job_id
    (py_and (PyStr get_default_ingestion_job_id) (fun _ =>
     py_and (PyBool is_stateful_ingestion_configured) (fun _ =>
     py_and (match stateful_ingestion config with
             | Some c => PyConfig c
             | None => PyNone
             end) (fun _ =>
     match stateful_ingestion config with
     | Some c => PyBool (remove_stale_metadata c)
     | None => PyNone
     end)))).

Definition get_platform_instance_id (config : PulsarSourceConfig) : result string :=
  match platform_instance config with
  | Some instance => Ok instance
  | None => Raise AssertionError
  end.

(** Modelled from the spec: the constructor [KafkaCheckpointState()] is not
    among the sources; a checkpoint is created with empty state. *)
Definition KafkaCheckpointState__init__ : KafkaCheckpointState :=
  {| topic_urns := ∅ |}.

Definition create_checkpoint (ctx : mce_extractor.PipelineContext)
    (config : PulsarSourceConfig) (job_id : string) : result (option Checkpoint) :=
  match mce_extractor.pipeline_name ctx with
  | None => Raise AssertionError
  | Some pipeline =>
    if String.eqb job_id get_default_ingestion_job_id then
      do instance <- get_platform_instance_id config;
      Ok (Some {| job_name := job_id;
                  pipeline_name := pipeline;
                  platform_instance_id := instance;
                  run_id := mce_extractor.run_id ctx;
                  config := config;
                  state := Some KafkaCheckpointState__init__ |})
    else Ok None
  end.

End pulsar.

(** ** api/entities/dataprocess/dataprocess_instance.py: _emit_mcp *)

Module dataprocess_instance.

(** The two shapes of [emit] a transport exposes. *)
Inductive capability : Type :=
| SyncEmit    (* emit(proposal) *)
| AsyncEmit.  (* emit(proposal, callback) *)

(** An emitter handle: the name of its class, [type(emitter).__name__], and
    the [emit] it exposes. *)
Record Emitter : Type := {
  type_name : string;
  exposes : capability
}.

Section dispatch.
Variable Callback : Type.

(** A call made on the emitter. *)
Inductive emit_call : Type :=
| emit1 (mcp : mcp.MetadataChangeProposalWrapper)
| emit2 (mcp : mcp.MetadataChangeProposalWrapper) (callback : Callback).

(** [_emit_mcp]: the call it makes on the emitter, unless it raises
    before making one. *)
Definition _emit_mcp (mcp : mcp.MetadataChangeProposalWrapper) (emitter : Emitter)
    (callback : option Callback) : result emit_call :=
  if String.eqb (type_name emitter) "DatahubKafkaEmitter" then
    match callback with
    | None => Raise AssertionError
    | Some cb => Ok (emit2 mcp cb)
    end
  else Ok (emit1 mcp).
End dispatch.

(** *** DataProcessInstance *)

(** The instance; [urn], [template_urn], [parent_instance], and the urns
    of the lists hold the [str(...)] of the urn objects. *)
Record DataProcessInstance : Type := {
  id : string;
  urn : string;
  orchestrator : string;
  cluster : string;
  type : string;
  template_urn : option string;
  parent_instance : option string;
  properties : list (string * string);
  url : option string;
  inlets : list string;
  outlets : list string;
  upstream_urns : list string
}.

Section instance.
Variable Callback : Type.
(** [int(time.time() * 1000)] and the constructors of the generated aspect
    classes. *)
Variable now_millis : Z.
Variable DataProcessInstanceProperties :
  string → Z → string → string → list (string * string) → option string →
  schema_classes.DictWrapper.
Variable DataProcessInstanceRelationships :
  list string → option string → option string → schema_classes.DictWrapper.
Variable DataProcessInstanceInput : list string → schema_classes.DictWrapper.
Variable DataProcessInstanceOutput : list string → schema_classes.DictWrapper.
Variable DataProcessInstanceRunEventClass :
  string → Z → option (string * string) → option Z → schema_classes.DictWrapper.
(** What a call on the emitter does, given the calls made on it before:
    it returns, or raises. *)
Variable transport : list (emit_call Callback) → emit_call Callback → option exn.

Definition proposal (entityType entityUrn aspectName : string)
    (aspect : schema_classes.DictWrapper) : mcp.MetadataChangeProposalWrapper :=
  {| mcp.entityType := entityType;
     mcp.changeType := schema_classes.ChangeTypeClass_UPSERT;
     mcp.entityUrn := Some entityUrn;
     mcp.entityKeyAspect := None;
     mcp.auditHeader := None;
     mcp.aspectName := Some aspectName;
     mcp.aspect := Some aspect;
     mcp.systemMetadata := None |}.

Definition non_empty {A : Type} (l : list A) : bool :=
  match l with [] => false | _ :: _ => true end.

Definition generate_inlet_outlet_mcp (self : DataProcessInstance)
  : list mcp.MetadataChangeProposalWrapper :=
  ((if non_empty (inlets self)
    then [proposal "dataProcessInstance" (urn self) "dataProcessInstanceInput"
            (DataProcessInstanceInput (inlets self))]
    else [])
   ++ (if non_empty (outlets self)
       then [proposal "dataProcessInstance" (urn self) "dataProcessInstanceOutput"
               (DataProcessInstanceOutput (outlets self))]
       else [])
   ++ ((fun iolet => proposal "dataset" iolet "status" (schema_classes.StatusClass false))
       <$> (inlets self ++ outlets self)))%list.

Definition generate_mcp (self : DataProcessInstance)
  : list mcp.MetadataChangeProposalWrapper :=
  proposal "dataProcessInstance" (urn self) "dataProcessInstanceProperties"
    (DataProcessInstanceProperties (id self) now_millis "urn:li:corpuser:datahub"
       (type self) (properties self) (url self))
  :: proposal "dataProcessInstance" (urn self) "dataProcessInstanceRelationships"
       (DataProcessInstanceRelationships (upstream_urns self) (template_urn self)
          (parent_instance self))
  :: generate_inlet_outlet_mcp self.

Definition end_event_mcp (self : DataProcessInstance) (end_timestamp_millis : Z)
    (result : string) (result_type : option string) (attempt : option Z)
  : list mcp.MetadataChangeProposalWrapper :=
  [proposal "dataProcessInstance" (urn self) "dataProcessInstanceRunEvent"
     (DataProcessInstanceRunEventClass "COMPLETE" end_timestamp_millis
        (Some (result,
               match result_type with
               | Some t => t
               | None => orchestrator self
               end))
        attempt)].

(** [for mcp in mcps: self._emit_mcp(mcp, emitter, callback)], after the
    calls [before]: the calls the loop makes on the emitter, and the
    exception that ended it, if any. *)
Fixpoint emit_each (before : list (emit_call Callback))
    (mcps : list mcp.MetadataChangeProposalWrapper) (emitter : Emitter)
    (callback : option Callback) : generated (emit_call Callback) :=
  match mcps with
  | [] => Generated [] None
  | m :: rest =>
    match _emit_mcp Callback m emitter callback with
    | Raise e => Generated [] (Some e)
    | Ok call =>
      match transport before call with
      | Some e => Generated [call] (Some e)
      | None =>
        let g := emit_each (before ++ [call])%list rest emitter callback in
        Generated (call :: yielded g) (raised g)
      end
    end
  end.

Definition emit (before : list (emit_call Callback)) (self : DataProcessInstance)
    (emitter : Emitter) (callback : option Callback) : generated (emit_call Callback) :=
  emit_each before (generate_mcp self) emitter callback.

Definition emit_process_end (before : list (emit_call Callback))
    (self : DataProcessInstance) (emitter : Emitter)
    (end_timestamp_millis : Z) (result : string) (result_type : option string)
    (attempt : option Z) (callback : option Callback) : generated (emit_call Callback) :=
  emit_each before (end_event_mcp self end_timestamp_millis result result_type attempt)
    emitter callback.
End instance.

End dataprocess_instance.

(** ** Dynamic operations on Python values *)

(** [bool(v)]. *)
Definition py_truthy (v : json) : bool :=
  match v with
  | JNull => false
  | JBool b => b
  | JNum n => negb (n =? 0)%Z
  | JStr s => negb (String.eqb s "")
  | JBytes bs => negb (length bs =? 0)%nat
  | JList l => negb (length l =? 0)%nat
  | JDict d => negb (length d =? 0)%nat
  end.

(** [o.get(k, default)]: only a [dict] has the method. *)
Definition py_get (o : json) (k : string) (default : json) : result json :=
  match o with
  | JDict d => Ok (match dict_get k d with Some v => v | None => default end)
  | _ => Raise (AttributeError "get")
  end.

(** Number of code points of a [str]: the bytes that do not continue a
    multi-byte sequence. *)
Definition str_len (s : string) : nat :=
  length (filter (fun b => negb (utf8_tail b)) (String.list_byte_of_string s)).

(** [len(v)]. *)
Definition py_len (v : json) : result nat :=
  match v with
  | JStr s => Ok (str_len s)
  | JBytes bs => Ok (length bs)
  | JList l => Ok (length l)
  | JDict d => Ok (length d)
  | _ => Raise TypeError
  end.

(** [v[0].get(k, default)] for a [v] with [len(v) == 1]: the element of a
    list; a [dict] with string keys has no key [0]; the element of a [str]
    or of [bytes] has no [get]. *)
Definition py_first_get (v : json) (k : string) (default : json) : result json :=
  match v with
  | JList (x :: _) => py_get x k default
  | JList [] => Raise IndexError
  | JDict _ => Raise KeyError
  | JStr _ | JBytes _ => Raise (AttributeError "get")
  | _ => Raise TypeError
  end.

(** [s.split(sep)] for a one-character separator. *)
Fixpoint split (sep : Ascii.ascii) (s : string) : list string :=
  match s with
  | EmptyString => [EmptyString]
  | String c s' =>
    if Ascii.eqb c sep then EmptyString :: split sep s'
    else match split sep s' with
         | [] => [String c EmptyString]
         | part :: parts => String c part :: parts
         end
  end.

(** No [":"] occurs in [s]. *)
Fixpoint colon_free (s : string) : bool :=
  match s with
  | EmptyString => true
  | String c s' => negb (Ascii.eqb c ":") && colon_free s'
  end.

(** ** ingestion/graph/client.py: get_latest_timeseries_value *)

Module client.

Record DatahubClientConfig : Type := {
  server : string
}.

Definition _guess_entity_type (urn : string) : result string :=
  if negb (startswith urn "urn:li:") then Raise AssertionError
  else match split ":"%char urn !! 2%nat with
       | Some part => Ok part
       | None => Raise IndexError
       end.

Section graph.
(** [_post_generic] (the HTTP round trip) and
    [aspect_type.from_obj(json.loads(aspect_json), tuples=False)]. *)
Variable _post_generic : string → json → result json.
Variable from_json_text : json → result schema_classes.DictWrapper.
Variable render_failure : json → string.

Definition filter_criteria (filter_criteria_map : list (string * string)) : list json :=
  (fun '(k, v) =>
     JDict [("field", JStr k); ("value", JStr v); ("condition", JStr "EQUAL")])
  <$> filter_criteria_map.

(** The dictionary [query_body] built before the request is sent. *)
Definition query_body (entity_urn aspect_name : string)
    (filter_criteria_map : list (string * string)) : result json :=
  do entity <- _guess_entity_type entity_urn;
  Ok (JDict [("urn", JStr entity_urn);
             ("entity", JStr entity);
             ("aspect", JStr aspect_name);
             ("latestValue", JBool true);
             ("filter",
              JDict [("or",
                      JList [JDict [("and",
                                     JList (filter_criteria filter_criteria_map))]])])]).

Definition end_point (config : DatahubClientConfig) : string :=
  server config +:+ "/aspects?action=getTimeseriesAspectValues".

Definition get_latest_timeseries_value (config : DatahubClientConfig)
    (entity_urn aspect_name : string) (filter_criteria_map : list (string * string))
  : result (option schema_classes.DictWrapper) :=
  do body <- query_body entity_urn aspect_name filter_criteria_map;
  do resp <- _post_generic (end_point config) body;
  do value <- py_get resp "value" (JDict []);
  do values <- py_get value "values" JNull;
  if py_truthy values then
    do n <- py_len values;
    if negb (n =? 1)%nat then Raise AssertionError
    else
      do aspect <- py_first_get values "aspect" (JDict []);
      do aspect_json <- py_get aspect "value" JNull;
      if py_truthy aspect_json then
        do a <- from_json_text aspect_json;
        Ok (Some a)
      else Raise (OperationalError (render_failure aspect_json))
  else Ok None.
End graph.

End client.

(** * Statements *)

(** ** Vocabulary of the properties *)

Module props.
Import serialization_helper.

(** The two directions of the naming-convention transform. *)
Inductive direction : Type := toWire | fromWire.

Definition transform (dir : direction) : json → result json :=
  match dir with
  | toWire => pre_json_transform
  | fromWire => post_json_transform
  end.


(** [fromWire(toWire(x))]. *)
Definition roundtrip (x : json) : result json :=
  do w <- pre_json_transform x; post_json_transform w.

(** No [None] anywhere in the structure. *)
Fixpoint no_nulls (x : json) : bool :=
  match x with
  | JNull => false
  | JList l => forallb no_nulls l
  | JDict d => forallb (fun kv => no_nulls kv.2) d
  | _ => true
  end.

(** No byte-sequence leaf anywhere in the structure. *)
Fixpoint no_bytes (x : json) : bool :=
  match x with
  | JBytes _ => false
  | JList l => forallb no_bytes l
  | JDict d => forallb (fun kv => no_bytes kv.2) d
  | _ => true
  end.

(** No union ambiguity: no mapping has a [fieldDiscriminator] key, and the
    key of a single-key mapping carries the wire prefix only as part of the
    internal prefix. *)
Fixpoint no_union_ambiguity (x : json) : bool :=
  match x with
  | JList l => forallb no_union_ambiguity l
  | JDict d =>
    negb (dict_has "fieldDiscriminator" d)
    && match d with
       | [(key, _)] =>
         startswith key "com.linkedin.pegasus2avro."
         || negb (startswith key "com.linkedin.")
       | _ => true
       end
    && forallb (fun kv => no_union_ambiguity kv.2) d
  | _ => true
  end.



(** What the round trip needs of a structure. *)
Definition plain (x : json) : bool :=
  no_nulls x && no_bytes x && no_union_ambiguity x.

Definition inverts (x : json) : Prop :=
  plain x = true →
  ∃ w, _json_transform x "com.linkedin.pegasus2avro." "com.linkedin." = Ok w
       ∧ _json_transform w "com.linkedin." "com.linkedin.pegasus2avro." = Ok x.


(** A retraction work unit for [urn]: it carries a change proposal for
    that urn with [changeType = UPSERT], [aspectName = "status"] and the
    aspect payload [Status(removed = true)]. *)
Definition is_retraction_of (urn : string) (wu : workunit.MetadataWorkUnit) : Prop :=
  ∃ w, workunit.metadata wu = workunit.MCPW w
    ∧ mcp.entityUrn w = Some urn
    ∧ mcp.entityKeyAspect w = None
    ∧ mcp.changeType w = "UPSERT"
    ∧ mcp.aspectName w = Some "status"
    ∧ mcp.aspect w = Some (schema_classes.StatusClass true)
    ∧ schema_classes.to_obj (schema_classes.StatusClass true)
      = JDict [("removed", JBool true)].

(** The job has [stateful_ingestion.remove_stale_metadata] switched on. *)
Definition stale_removal_enabled (config : pulsar.PulsarSourceConfig) : bool :=
  match pulsar.stateful_ingestion config with
  | Some si => pulsar.remove_stale_metadata si
  | None => false
  end.

(** The two transports, as the type hints of [_emit_mcp] name them. *)
Definition DatahubRestEmitter : dataprocess_instance.Emitter :=
  {| dataprocess_instance.type_name := "DatahubRestEmitter";
     dataprocess_instance.exposes := dataprocess_instance.SyncEmit |}.

Definition DatahubKafkaEmitter : dataprocess_instance.Emitter :=
  {| dataprocess_instance.type_name := "DatahubKafkaEmitter";
     dataprocess_instance.exposes := dataprocess_instance.AsyncEmit |}.




End props.

(** ** Sample inputs *)

Module samples.

Definition schema_metadata_example : json :=
  JDict [("com.linkedin.pegasus2avro.schema.SchemaMetadata",
          JDict [("schemaName", JStr "orders");
                 ("version", JNum 0);
                 ("fields",
                  JList [JDict [("fieldPath", JStr "id"); ("nullable", JBool false)];
                         JDict [("type",
                                 JDict [("com.linkedin.pegasus2avro.schema.StringType",
                                         JDict [])])]])])].

Definition invalid_bytes_proposal : mcp.MetadataChangeProposalWrapper :=
  {| mcp.entityType := "dataset";
     mcp.changeType := "UPSERT";
     mcp.entityUrn := Some "urn:li:dataset:orders";
     mcp.entityKeyAspect := None;
     mcp.auditHeader := None;
     mcp.aspectName := Some "payload";
     mcp.aspect := Some {| schema_classes.to_obj := JDict [("value", JBytes [xff])];
                           schema_classes.validate := true |};
     mcp.systemMetadata := None |}.

Definition status_proposal : mcp.MetadataChangeProposalWrapper :=
  {| mcp.entityType := "dataset";
     mcp.changeType := "UPSERT";
     mcp.entityUrn := Some "urn:li:dataset:orders";
     mcp.entityKeyAspect := None;
     mcp.auditHeader := None;
     mcp.aspectName := Some "status";
     mcp.aspect := Some (schema_classes.StatusClass false);
     mcp.systemMetadata := None |}.

Definition enabled_config : pulsar.PulsarSourceConfig :=
  {| pulsar.stateful_ingestion :=
       Some {| pulsar.enabled := true; pulsar.remove_stale_metadata := true |};
     pulsar.platform_instance := Some "prod" |}.

Definition checkpoint_of (urns : gset string) : pulsar.Checkpoint :=
  {| pulsar.job_name := "ingest_from_pulsar_source";
     pulsar.pipeline_name := "pulsar_pipeline";
     pulsar.platform_instance_id := "prod";
     pulsar.run_id := "run";
     pulsar.config := enabled_config;
     pulsar.state := Some {| pulsar.topic_urns := urns |} |}.

Definition checkpoint_job_urn : string :=
  "urn:li:dataJob:(urn:li:dataFlow:(pulsar,pulsar_pipeline,prod),ingest_from_pulsar_source)".


Definition ownership_example : list (string * json) :=
  [("owner", JStr "urn:li:corpuser:jdoe"); ("source", JNull); ("type", JStr "DATAOWNER")].

End samples.

(** ** Vocabulary of the further properties *)

Module more_props.
Import serialization_helper props.

(** [toWire(fromWire(y))]. *)
Definition roundtrip_from_wire (y : json) : result json :=
  do x <- post_json_transform y; pre_json_transform x.

(** No mapping of the structure has a [fieldDiscriminator] key. *)
Fixpoint no_discriminator (x : json) : bool :=
  match x with
  | JList l => forallb no_discriminator l
  | JDict d =>
    negb (dict_has "fieldDiscriminator" d)
    && forallb (fun kv => no_discriminator kv.2) d
  | _ => true
  end.

(** What the round trip from the wire needs of a structure. *)
Definition wire_plain (y : json) : bool :=
  no_nulls y && no_bytes y && no_discriminator y.

Definition inverts_back (y : json) : Prop :=
  wire_plain y = true →
  ∃ x, _json_transform y "com.linkedin." "com.linkedin.pegasus2avro." = Ok x
       ∧ _json_transform x "com.linkedin.pegasus2avro." "com.linkedin." = Ok y.

(** Every byte-sequence leaf of the structure is well-formed UTF-8. *)
Fixpoint decodable (x : json) : bool :=
  match x with
  | JBytes bs => utf8_valid bs
  | JList l => forallb decodable l
  | JDict d => forallb (fun kv => decodable kv.2) d
  | _ => true
  end.

(** The exceptions the traversal itself can raise. *)
Definition traversal_error (e : exn) : bool :=
  match e with
  | KeyError | TypeError | UnicodeDecodeError => true
  | _ => false
  end.

(** The payloads a change proposal carries. *)
Definition payloads (p : mcp.MetadataChangeProposalWrapper)
  : list schema_classes.DictWrapper :=
  (match mcp.entityKeyAspect p with Some k => [k] | None => [] end
   ++ match mcp.aspect p with Some a => [a] | None => [] end)%list.

(** The serialized aspects a generic-encoded proposal carries. *)
Definition serialized_aspects (m : schema_classes.MetadataChangeProposalClass)
  : list schema_classes.GenericAspectClass :=
  (match schema_classes.entityKeyAspect m with Some k => [k] | None => [] end
   ++ match schema_classes.aspect m with Some a => [a] | None => [] end)%list.

(** Number of characters of [s] that belong to the class. *)
Fixpoint count_in_class (in_class : Ascii.ascii → bool) (s : string) : nat :=
  match s with
  | EmptyString => 0
  | String c s' => (if in_class c then 1 else 0) + count_in_class in_class s'
  end.

(** No character of [s] belongs to the class. *)
Definition free_of (in_class : Ascii.ascii → bool) (s : string) : bool :=
  (count_in_class in_class s =? 0)%nat.

(** The aspect name of a proposal, [""] when it has none. *)
Definition aspect_name_of (p : mcp.MetadataChangeProposalWrapper) : string :=
  match mcp.aspectName p with Some n => n | None => "" end.


(** A payload and its serialized form: the bytes are the JSON text of the
    wire form of the payload, which holds no byte sequence, and the content
    type is the JSON media type. *)
Definition serializes (json_dumps : json → string) (a : schema_classes.DictWrapper)
    (g : schema_classes.GenericAspectClass) : Prop :=
  ∃ wire,
    pre_json_transform (schema_classes.to_obj a) = Ok wire
    ∧ no_bytes wire = true
    ∧ schema_classes.value g = String.list_byte_of_string (json_dumps wire)
    ∧ schema_classes.contentType g = "application/json".

(** The identifier of a work unit, when its class is known. *)
Definition unit_id (wu : mce_extractor.WorkUnit) : option string :=
  match wu with
  | mce_extractor.IsMetadataWorkUnit w => Some (workunit.id w)
  | mce_extractor.IsUsageStatsWorkUnit w => Some (workunit.usage_id w)
  | mce_extractor.IsOtherWorkUnit _ => None
  end.

(** The payload a work unit holds. *)
Definition unit_payload (wu : mce_extractor.WorkUnit) : option mce_extractor.Record_ :=
  match wu with
  | mce_extractor.IsMetadataWorkUnit w =>
    Some (mce_extractor.MetadataRecord (workunit.metadata w))
  | mce_extractor.IsUsageStatsWorkUnit w =>
    Some (mce_extractor.UsageRecord (workunit.usageStats w))
  | mce_extractor.IsOtherWorkUnit _ => None
  end.

(** The generic-encoded form of the soft delete of [urn], stamped. *)
Definition soft_delete_generic_form (json_dumps : json → string) (urn : string)
    (stamp : schema_classes.SystemMetadataClass)
  : schema_classes.MetadataChangeProposalClass :=
  {| schema_classes.entityType := "dataset";
     schema_classes.entityUrn := Some urn;
     schema_classes.entityKeyAspect := None;
     schema_classes.changeType := "UPSERT";
     schema_classes.auditHeader := None;
     schema_classes.aspectName := Some "status";
     schema_classes.aspect :=
       Some {| schema_classes.value :=
                 String.list_byte_of_string (json_dumps (JDict [("removed", JBool true)]));
               schema_classes.contentType := "application/json" |};
     schema_classes.systemMetadata := Some stamp |}.



(** The values a response carries: [resp.get("value", {}).get("values")]. *)
Definition response_values (resp : json) : result json :=
  do value <- py_get resp "value" (JDict []); py_get value "values" JNull.

(** The serialized aspect of a value: [v.get("aspect", {}).get("value")]. *)
Definition value_aspect_json (v : json) : result json :=
  do aspect <- py_get v "aspect" (JDict []); py_get aspect "value" JNull.

Definition run_instance_example : dataprocess_instance.DataProcessInstance :=
  {| dataprocess_instance.id := "run-1";
     dataprocess_instance.urn := "urn:li:dataProcessInstance:abc";
     dataprocess_instance.orchestrator := "airflow";
     dataprocess_instance.cluster := "prod";
     dataprocess_instance.type := "BATCH_SCHEDULED";
     dataprocess_instance.template_urn := None;
     dataprocess_instance.parent_instance := None;
     dataprocess_instance.properties := [];
     dataprocess_instance.url := None;
     dataprocess_instance.inlets := ["urn:li:dataset:in"];
     dataprocess_instance.outlets := [];
     dataprocess_instance.upstream_urns := [] |}.

Definition any_aspect : schema_classes.DictWrapper :=
  {| schema_classes.to_obj := JDict []; schema_classes.validate := true |}.

Definition checkpoint_filter : list (string * string) :=
  [("pipelineName", "pulsar_pipeline"); ("platformInstanceId", "prod")].

Definition local_server : client.DatahubClientConfig :=
  {| client.server := "http://localhost:8080" |}.

(** A response carrying the given values. *)
Definition response_with (values : list json) : json :=
  JDict [("value", JDict [("values", JList values)])].

Definition value_with_aspect (text : string) : json :=
  JDict [("aspect", JDict [("value", JStr text)])].

(** Sample inputs of the further properties. *)
Definition wire_response_example : json :=
  JDict [("com.linkedin.common.Ownership",
          JDict [("owners",
                  JList [JDict [("owner", JStr "urn:li:corpuser:jdoe");
                                ("type", JStr "DATAOWNER")]]);
                 ("lastModified",
                  JDict [("com.linkedin.common.AuditStamp",
                          JDict [("time", JNum 0)])])])].

Definition blob_example : json :=
  JDict [("value", JBytes [x7b; x7d]); ("contentType", JStr "application/json")].

Definition union_example : list (string * json) :=
  [("fieldDiscriminator", JStr "cost"); ("cost", JNum 3); ("note", JStr "n")].

End more_props.

(** * Proofs *)

Lemma bind_ok {A B : Type} (m : result A) (k : A → result B) (b : B) :
  bind m k = Ok b ↔ ∃ a, m = Ok a ∧ k a = Ok b.
Proof.
  destruct m as [a|e]; simpl; split.
  - intros H. exists a. done.
  - intros (a' & [= ->] & H). done.
  - discriminate.
  - intros (a' & [=] & _).
Qed.

(** ** Strings *)

Lemma startswith_app (p r : string) : startswith (p +:+ r) p = true.
Proof.
  induction p as [|a p IH]; simpl; [done|].
  rewrite Ascii.eqb_refl. exact IH.
Qed.

Lemma startswith_split (s p : string) :
  startswith s p = true → s = p +:+ drop_chars (String.length p) s.
Proof.
  revert s. induction p as [|a p IH]; intros s; simpl; [done|].
  destruct s as [|b s]; [done|].
  destruct (Ascii.eqb a b) eqn:E; [|done].
  apply Ascii.eqb_eq in E as ->. intros H.
  change (String b s = String b (p +:+ drop_chars (String.length p) s)).
  f_equal. by apply IH.
Qed.

Lemma drop_chars_app (p r : string) : drop_chars (String.length p) (p +:+ r) = r.
Proof. induction p as [|a p IH]; simpl; done. Qed.

Lemma replace_first_prefix (old new s : string) :
  startswith s old = true →
  replace_first old new s = new +:+ drop_chars (String.length old) s.
Proof. intros H. destruct s; cbn [replace_first]; by rewrite H. Qed.

(** Renaming a key to the wire namespace and back is the identity. *)
Lemma rename_there_and_back (key : string) :
  startswith key "com.linkedin.pegasus2avro." = true →
  let wire := replace_first "com.linkedin.pegasus2avro." "com.linkedin." key in
  startswith wire "com.linkedin." = true ∧
  replace_first "com.linkedin." "com.linkedin.pegasus2avro." wire = key.
Proof.
  intros H wire. subst wire.
  rewrite (replace_first_prefix _ _ _ H).
  split; [apply startswith_app|].
  rewrite replace_first_prefix by apply startswith_app.
  rewrite drop_chars_app. symmetry. by apply startswith_split.
Qed.

(** ** The naming-convention transform *)

Module transform_facts.
Import serialization_helper props.

Lemma transform_dict (d : list (string * json)) (f t : string) :
  _json_transform (JDict d) f t =
  match d with
  | [(key, value)] =>
    if startswith key f then
      do v <- _json_transform value f t;
      Ok (JDict [(replace_first f t key, v)])
    else discriminated_or_generic (fun o => _json_transform o f t) d
  | _ => discriminated_or_generic (fun o => _json_transform o f t) d
  end.
Proof. done. Qed.

Lemma transform_list (l : list json) (f t : string) :
  _json_transform (JList l) f t =
  do new_obj <- each (fun o => _json_transform o f t) l; Ok (JList new_obj).
Proof. done. Qed.

(** A value that is not [None] is never transformed into [None]. *)
Lemma transform_not_null (x out : json) (f t : string) :
  _json_transform x f t = Ok out → is_null x = false → is_null out = false.
Proof.
  intros H Hx. destruct x as [| | | |bs|l|d]; try done; try (by inversion H).
  - simpl in H. destruct (bytes_decode bs); by inversion H.
  - rewrite transform_list in H. apply bind_ok in H as (? & _ & [= <-]). done.
  - rewrite transform_dict in H.
    assert (∀ r : list (string * json),
      discriminated_or_generic (fun o => _json_transform o f t) r = Ok out →
      is_null out = false) as Hgen.
    { unfold discriminated_or_generic. intros r Hr.
      destruct (dict_has _ r).
      - destruct (dict_get _ r) as [[]|]; try done.
        apply bind_ok in Hr as (? & _ & [= <-]). done.
      - apply bind_ok in Hr as (? & _ & [= <-]). done. }
    destruct d as [|[key value] [|]]; eauto.
    destruct (startswith key f); eauto.
    apply bind_ok in H as (? & _ & [= <-]). done.
Qed.

End transform_facts.

Module roundtrip_facts.
Import serialization_helper props transform_facts.

#[local] Arguments startswith : simpl never.
#[local] Arguments replace_first : simpl never.

Local Notation "'to_wire'" :=
  (fun o => _json_transform o "com.linkedin.pegasus2avro." "com.linkedin.").
Local Notation "'from_wire'" :=
  (fun o => _json_transform o "com.linkedin." "com.linkedin.pegasus2avro.").

Lemma plain_list (l : list json) :
  plain (JList l) = true → forallb plain l = true.
Proof.
  unfold plain. simpl. induction l as [|x l IH]; simpl; [done|].
  rewrite !andb_true_iff. intros [[[H1 H2] [H3 H4]] [H5 H6]].
  split; [done|]. apply IH. by rewrite H2, H4, H6.
Qed.

Lemma plain_dict (d : list (string * json)) :
  plain (JDict d) = true → forallb (fun kv => plain kv.2) d = true.
Proof.
  unfold plain. simpl. rewrite !andb_true_iff. intros [[H1 H2] [_ H3]].
  clear -H1 H2 H3. induction d as [|kv d IH]; simpl in *; [done|].
  rewrite !andb_true_iff in *.
  destruct H1 as [? ?], H2 as [? ?], H3 as [? ?]. by split; [|apply IH].
Qed.

Lemma plain_not_null (x : json) : plain x = true → is_null x = false.
Proof. by destruct x. Qed.

Lemma each_inverts (l : list json) :
  Forall inverts l → forallb plain l = true →
  ∃ l', each to_wire l = Ok l' ∧ each from_wire l' = Ok l.
Proof.
  induction 1 as [|x l Hx _ IH]; simpl; [by exists []|].
  rewrite andb_true_iff. intros [Hp Hl].
  destruct (Hx Hp) as (w & Hw & Hback). destruct (IH Hl) as (l' & Hl' & Hlback).
  exists (w :: l'). simpl in *. by rewrite Hw, Hl', Hback, Hlback.
Qed.

Lemma items_inverts (d : list (string * json)) :
  Forall (fun kv => inverts kv.2) d → forallb (fun kv => plain kv.2) d = true →
  ∃ d', items to_wire d = Ok d' ∧ items from_wire d' = Ok d ∧ dict_keys d' = dict_keys d.
Proof.
  induction 1 as [|[k v] d Hv _ IH]; simpl; [by exists []|].
  rewrite andb_true_iff. intros [Hp Hd].
  destruct (Hv Hp) as (w & Hw & Hback). destruct (IH Hd) as (d' & Hd' & Hdback & Hkeys).
  exists ((k, w) :: d'). simpl in *.
  rewrite (plain_not_null v Hp), Hw, Hd'. simpl.
  rewrite (transform_not_null v w _ _ Hw (plain_not_null v Hp)), Hback, Hdback. simpl.
  unfold dict_keys in *. simpl. by rewrite Hkeys.
Qed.

Lemma dict_has_keys (k : string) (d d' : list (string * json)) :
  dict_keys d' = dict_keys d → dict_has k d' = dict_has k d.
Proof. unfold dict_has. by intros ->. Qed.

Lemma roundtrip_inverts (x : json) : inverts x.
Proof.
  induction x as [|b|n|s|bs|l IH|d IH] using json_nested_ind; unfold inverts.
  - done.
  - intros _. by exists (JBool b).
  - intros _. by exists (JNum n).
  - intros _. by exists (JStr s).
  - done.
  - (* a sequence *)
    intros Hp. destruct (each_inverts l IH (plain_list l Hp)) as (l' & Hl' & Hback).
    exists (JList l'). rewrite !transform_list, Hl'. simpl. by rewrite Hback.
  - (* a mapping *)
    intros Hp. pose proof (plain_dict d Hp) as Hvals.
    unfold plain in Hp. simpl in Hp. rewrite !andb_true_iff in Hp.
    destruct Hp as [_ [[Hfd Hkey] _]]. apply negb_true_iff in Hfd.
    assert (Hgeneric :
      match d with
      | [(key, _)] => startswith key "com.linkedin." = false
      | _ => True
      end →
      ∃ w, discriminated_or_generic to_wire d = Ok w ∧ from_wire w = Ok (JDict d)).
    { intros Hsingle.
      destruct (items_inverts d IH Hvals) as (d' & Hd' & Hback & Hkeys).
      exists (JDict d'). unfold discriminated_or_generic at 1. rewrite Hfd, Hd'.
      split; [done|]. rewrite transform_dict.
      assert (discriminated_or_generic from_wire d' = Ok (JDict d)) as Hgen.
      { unfold discriminated_or_generic.
        by rewrite (dict_has_keys _ d d' Hkeys), Hfd, Hback. }
      destruct d' as [|[k' w] [|]]; try done.
      destruct d as [|[k v] [|]]; try done.
      injection Hkeys as ->. by rewrite Hsingle. }
    rewrite transform_dict.
    destruct d as [|[key value] [|kv d]]; [by apply Hgeneric| |by apply Hgeneric].
    destruct (startswith key "com.linkedin.pegasus2avro.") eqn:Hpre.
    + (* a tagged union: the key is renamed and renamed back *)
      apply Forall_cons in IH as [IHv _]. simpl in Hvals.
      rewrite andb_true_r in Hvals. destruct (IHv Hvals) as (w & Hw & Hback).
      destruct (rename_there_and_back key Hpre) as [Hwire Hsame].
      eexists. simpl in Hw. rewrite Hw. split; [done|].
      rewrite transform_dict, Hwire, Hback. simpl. by rewrite Hsame.
    + apply Hgeneric. simpl in Hkey. by apply negb_true_iff in Hkey.
Qed.

End roundtrip_facts.

Module null_facts.
Import serialization_helper props transform_facts.

#[local] Arguments startswith : simpl never.


Lemma items_raise (recur : json → result json) (d : list (string * json)) (e : exn) :
  items recur d = Raise e → ∃ k v, (k, v) ∈ d ∧ recur v = Raise e.
Proof.
  induction d as [|[k v] d IH]; simpl; [done|]. intros H.
  assert (items recur d = Raise e → ∃ k0 v0, (k0, v0) ∈ (k, v) :: d ∧ recur v0 = Raise e)
    as Hrest.
  { intros Hd. destruct (IH Hd) as (k0 & v0 & Hin & Hr).
    exists k0, v0. split; [apply elem_of_cons; by right|done]. }
  destruct (is_null v); [by apply Hrest|].
  destruct (recur v) as [w|e'] eqn:Hw; simpl in H.
  - destruct (items recur d) as [r|e'']; simpl in H; [done|].
    apply Hrest. congruence.
  - exists k, v. split; [apply elem_of_cons; by left|congruence].
Qed.




End null_facts.

(** ** Work unit construction *)

Module workunit_facts.
Import workunit.

(** The constructor never leaves the instance without its [metadata]. *)
Lemma init_sets_metadata (id : string)
    (mce : option schema_classes.MetadataChangeEvent)
    (mcp : option mcp.MetadataChangeProposalWrapper)
    (mcp_raw : option schema_classes.MetadataChangeProposalClass) (treat : bool) :
  MetadataWorkUnit__init__ id mce mcp mcp_raw treat ≠ Raise (AttributeError "metadata")
  ∧ MetadataWorkUnit__init__ id mce mcp mcp_raw treat ≠ Raise AssertionError.
Proof. by destruct mce, mcp, mcp_raw. Qed.

End workunit_facts.

(** ** Stale entity removal *)

Module pulsar_facts.
Import workunit pulsar props.

Section with_report.
Variable Report : Type.
Variable report_workunit : MetadataWorkUnit → Report → Report.
Variable report_stale_entity_soft_deleted : string → Report → Report.

Local Notation "'soft_delete'" :=
  (soft_delete_dataset Report report_workunit report_stale_entity_soft_deleted).
Local Notation "'removed_entity_workunits'" :=
  (gen_removed_entity_workunits Report report_workunit report_stale_entity_soft_deleted).

(** One soft delete yields one retraction work unit and does not raise. *)
Lemma soft_delete_dataset_yields (report : Report) (urn type : string) :
  ∃ wu, (soft_delete report urn type).2 = Generated [wu] None ∧ is_retraction_of urn wu.
Proof.
  eexists. split; [reflexivity|].
  eexists. repeat split; reflexivity.
Qed.

Lemma soft_delete_each (report : Report) (urns : list string) :
  let g := (yield_from_each Report (fun r u => soft_delete r u "topic") report urns).2 in
  raised g = None ∧ Forall2 is_retraction_of urns (yielded g).
Proof.
  revert report. induction urns as [|u urns IH]; intros report.
  - split; [done|constructor].
  - cbn [yield_from_each].
    destruct (soft_delete_dataset_yields report u "topic") as (wu & Hg1 & Hwu).
    destruct (soft_delete report u "topic") as [report1 g1].
    cbn [snd] in Hg1. subst g1. cbn [raised yielded].
    specialize (IH report1). cbv zeta in IH.
    destruct (yield_from_each _ _ report1 urns) as [report2 g2].
    cbn [snd raised yielded app] in *.
    destruct IH as [Hraised Hall]. split; [done|]. by constructor.
Qed.

(** With every precondition met, the differ is the soft-delete loop over
    the difference of the two states. *)
Lemma removed_entity_workunits_enabled (config : PulsarSourceConfig) (report : Report)
    (last cur : Checkpoint) (last_state cur_state : KafkaCheckpointState) :
  stale_removal_enabled config = true →
  state last = Some last_state → state cur = Some cur_state →
  removed_entity_workunits config report (Some last) (Some cur) =
  yield_from_each Report (fun r u => soft_delete r u "topic") report
    (elements (topic_urns last_state ∖ topic_urns cur_state)).
Proof.
  unfold stale_removal_enabled, gen_removed_entity_workunits.
  destruct (stateful_ingestion config) as [si|]; [|done].
  by intros -> -> ->.
Qed.

Lemma removed_entity_workunits_disabled (config : PulsarSourceConfig) (report : Report)
    (last cur : option Checkpoint) :
  stale_removal_enabled config = false
  ∨ last = None
  ∨ (∃ l, last = Some l ∧ state l = None)
  ∨ cur = None →
  removed_entity_workunits config report last cur = (report, Generated [] None).
Proof.
  unfold stale_removal_enabled, gen_removed_entity_workunits.
  intros [H | [-> | [(l & -> & Hl) | ->]]].
  - destruct (stateful_ingestion config); [|done]. rewrite H.
    by destruct last, cur.
  - by destruct (stateful_ingestion config).
  - rewrite Hl. destruct (stateful_ingestion config) as [si|]; [|done].
    destruct cur; [|done]. by destruct (remove_stale_metadata si).
  - destruct (stateful_ingestion config); [|done]. by destruct last.
Qed.

End with_report.
End pulsar_facts.

(** ** Entity types of urns *)

Module client_facts.
Import client.

Lemma split_not_empty (sep : Ascii.ascii) (s : string) : split sep s ≠ [].
Proof.
  induction s as [|c s IH]; simpl; [done|].
  destruct (Ascii.eqb c sep); [done|]. by destruct (split sep s).
Qed.

Lemma split_urn_li (rest : string) :
  split ":" ("urn:li:" +:+ rest) = "urn" :: "li" :: split ":" rest.
Proof.
  change ("urn:li:" +:+ rest) with
    (String "u" (String "r" (String "n" (String ":"
      (String "l" (String "i" (String ":" rest))))))).
  cbn [split].
  pose proof (split_not_empty ":" rest) as Hne.
  destruct (split ":" rest) as [|part parts] eqn:Hs; [done|].
  reflexivity.
Qed.

(** The guessed entity type of a [urn:li:] urn is its third component. *)
Lemma guess_entity_type_urn_li (urn : string) :
  startswith urn "urn:li:" = true →
  ∃ entity, _guess_entity_type urn = Ok entity ∧ split ":" urn !! 2%nat = Some entity.
Proof.
  intros H. unfold _guess_entity_type. rewrite H. simpl.
  rewrite (startswith_split urn "urn:li:" H). rewrite split_urn_li.
  pose proof (split_not_empty ":" (drop_chars (String.length "urn:li:") urn)) as Hne.
  destruct (split ":" _) as [|part parts]; [done|].
  by exists part.
Qed.

Lemma guess_entity_type_not_urn_li (urn : string) :
  startswith urn "urn:li:" = false → _guess_entity_type urn = Raise AssertionError.
Proof. intros H. unfold _guess_entity_type. by rewrite H. Qed.

Lemma split_until_colon (part rest : string) :
  colon_free part = true →
  split ":" (part +:+ ":" +:+ rest) = part :: split ":" rest.
Proof.
  induction part as [|c part IH]; simpl colon_free; intros Hc.
  - reflexivity.
  - apply andb_true_iff in Hc as [Hc Hpart]. apply negb_true_iff in Hc.
    change (String c part +:+ ":" +:+ rest) with (String c (part +:+ ":" +:+ rest)).
    cbn [split]. by rewrite Hc, (IH Hpart).
Qed.


End client_facts.

(** * The properties *)

Import serialization_helper props samples.

(** C2, as amended: for every aspect structure that contains no null
    value, no byte-sequence leaf, no mapping with a [fieldDiscriminator]
    key and no single-key mapping whose key carries the wire prefix
    [com.linkedin.] without the internal prefix
    [com.linkedin.pegasus2avro.], [fromWire(toWire(x))] returns [x]. *)
Theorem roundtrip_identity (x : json) :
  no_nulls x = true → no_bytes x = true → no_union_ambiguity x = true →
  roundtrip x = Ok x.
Proof.
  intros Hn Hb Hu.
  destruct (roundtrip_facts.roundtrip_inverts x) as (w & Hw & Hback).
  { unfold plain. by rewrite Hn, Hb, Hu. }
  unfold roundtrip, pre_json_transform, post_json_transform. by rewrite Hw.
Qed.

Lemma roundtrip_identity_witness :
  roundtrip schema_metadata_example = Ok schema_metadata_example.
Proof. apply (roundtrip_identity schema_metadata_example); reflexivity. Defined.

(** C2, as stated, fails on a byte-sequence leaf: [b"a"] contains no null
    and no mapping at all, and comes back as the text ["a"]. *)
Lemma roundtrip_bytes_counterexample :
  no_nulls (JBytes [x61]) = true
  ∧ no_union_ambiguity (JBytes [x61]) = true
  ∧ roundtrip (JBytes [x61]) = Ok (JStr "a")
  ∧ roundtrip (JBytes [x61]) ≠ Ok (JBytes [x61]).
Proof. repeat split; done. Qed.




(** C3, as amended: [validate()] returns false when both [entityUrn] and
    [entityKeyAspect] are set and when neither is; when exactly one is set
    it returns false if a present key aspect or aspect payload fails its
    own [validate()]; otherwise it builds the generic-encoded form, and if
    that raises the exception leaves [validate()], else [validate()]
    returns false if the form fails its structural self-check and true
    otherwise. *)
Theorem validate_characterised (json_dumps : json → string)
    (proposal_validate : schema_classes.MetadataChangeProposalClass → bool)
    (p : mcp.MetadataChangeProposalWrapper) :
  let result := mcp.validate json_dumps proposal_validate p in
  match mcp.entityUrn p, mcp.entityKeyAspect p with
  | Some _, Some _ => result = Ok false
  | None, None => result = Ok false
  | _, _ =>
    if mcp.fails_validate (mcp.entityKeyAspect p) || mcp.fails_validate (mcp.aspect p)
    then result = Ok false
    else match mcp.make_mcp json_dumps p with
         | Ok generic => result = Ok (proposal_validate generic)
         | Raise e => result = Raise e
         end
  end.
Proof.
  unfold mcp.validate.
  destruct (mcp.entityUrn p), (mcp.entityKeyAspect p) as [k|]; simpl; try done.
  - destruct (mcp.fails_validate (mcp.aspect p)); [done|].
    destruct (mcp.make_mcp json_dumps p) as [m|e]; simpl; [|done].
    by destruct (proposal_validate m).
  - destruct (negb (schema_classes.validate k)); [done|]. simpl.
    destruct (mcp.fails_validate (mcp.aspect p)); [done|].
    destruct (mcp.make_mcp json_dumps p) as [m|e]; simpl; [|done].
    by destruct (proposal_validate m).
Qed.

(** C3, as stated, fails where the generic-encoded form cannot be built: a
    proposal addressed by urn only, whose valid aspect holds a byte
    sequence that is not UTF-8, makes [validate()] raise instead of
    returning true. *)
Lemma validate_raises_counterexample :
  mcp.entityKeyAspect invalid_bytes_proposal = None
  ∧ mcp.fails_validate (mcp.aspect invalid_bytes_proposal) = false
  ∧ mcp.validate (fun _ => "{}") (fun _ => true) invalid_bytes_proposal
    = Raise UnicodeDecodeError.
Proof. repeat split; reflexivity. Qed.

(** C6: constructing a [MetadataWorkUnit] raises [ValueError] when none or
    when two or more of [mce], [mcp], [mcp_raw] are supplied, and succeeds
    with exactly the variant supplied when there is exactly one. *)
Theorem workunit_one_of_three (id : string)
    (mce : option schema_classes.MetadataChangeEvent)
    (mcp : option mcp.MetadataChangeProposalWrapper)
    (mcp_raw : option schema_classes.MetadataChangeProposalClass)
    (treat_errors_as_warnings : bool) :
  workunit.MetadataWorkUnit__init__ id mce mcp mcp_raw treat_errors_as_warnings =
  match mce, mcp, mcp_raw with
  | Some e, None, None =>
    Ok {| workunit.id := id; workunit.metadata := workunit.MCE e;
          workunit.treat_errors_as_warnings := treat_errors_as_warnings |}
  | None, Some w, None =>
    Ok {| workunit.id := id; workunit.metadata := workunit.MCPW w;
          workunit.treat_errors_as_warnings := treat_errors_as_warnings |}
  | None, None, Some r =>
    Ok {| workunit.id := id; workunit.metadata := workunit.MCP_raw r;
          workunit.treat_errors_as_warnings := treat_errors_as_warnings |}
  | _, _, _ => Raise (ValueError "exactly one of mce, mcp, or mcp_raw must be provided")
  end.
Proof. by destruct mce, mcp, mcp_raw. Qed.



(** C1: when the differ runs on a previous state [P] and a current state
    [C], it does not raise and yields exactly one retraction work unit per
    urn of [P ∖ C] and no other: the units yielded match, one for one, the
    elements of the difference, each carrying an UPSERT of the [status]
    aspect with [removed = true] for its urn.  In particular, for
    [P = {A, B, C}] and [C = {B, C, D}] it yields exactly one, for [A]. *)
Theorem stale_urns_retracted (Report : Type)
    (report_workunit : workunit.MetadataWorkUnit → Report → Report)
    (report_stale_entity_soft_deleted : string → Report → Report)
    (config : pulsar.PulsarSourceConfig) (report : Report)
    (last cur : pulsar.Checkpoint) (P C : gset string) :
  stale_removal_enabled config = true →
  pulsar.state last = Some {| pulsar.topic_urns := P |} →
  pulsar.state cur = Some {| pulsar.topic_urns := C |} →
  let g := (pulsar.gen_removed_entity_workunits Report report_workunit
              report_stale_entity_soft_deleted config report (Some last) (Some cur)).2 in
  raised g = None
  ∧ Forall2 is_retraction_of (elements (P ∖ C)) (yielded g)
  ∧ (∀ urn, urn ∈ elements (P ∖ C) ↔ urn ∈ P ∧ urn ∉ C)
  ∧ NoDup (elements (P ∖ C))
  ∧ (∀ a b c d : string, a ≠ b → a ≠ c → a ≠ d →
     P = {[a; b; c]} → C = {[b; c; d]} →
     ∃ wu, yielded g = [wu] ∧ is_retraction_of a wu).
Proof.
  intros Hon Hlast Hcur g.
  assert (raised g = None ∧ Forall2 is_retraction_of (elements (P ∖ C)) (yielded g))
    as [Hraised Hall].
  { subst g.
    rewrite (pulsar_facts.removed_entity_workunits_enabled _ _ _ config report last cur
               _ _ Hon Hlast Hcur).
    apply pulsar_facts.soft_delete_each. }
  split; [done|]. split; [done|]. split; [|split].
  - intros urn. rewrite elem_of_elements. set_solver.
  - apply NoDup_elements.
  - intros a b c d Hab Hac Had -> ->.
    assert (({[a; b; c]} : gset string) ∖ {[b; c; d]} = {[a]}) as Hdiff by set_solver.
    rewrite Hdiff, elements_singleton in Hall.
    apply Forall2_cons_inv_l in Hall as (wu & rest & Hwu & Hrest & Hy).
    apply Forall2_nil_inv_l in Hrest as ->. by exists wu.
Qed.

Lemma stale_urns_retracted_witness :
  ∃ wu,
    yielded (pulsar.gen_removed_entity_workunits (list string)
               (fun wu log => workunit.id wu :: log) (fun urn log => urn :: log)
               enabled_config []
               (Some (checkpoint_of {["A"; "B"; "C"]}))
               (Some (checkpoint_of {["B"; "C"; "D"]}))).2 = [wu]
    ∧ is_retraction_of "A" wu.
Proof.
  destruct (stale_urns_retracted (list string)
              (fun wu log => workunit.id wu :: log) (fun urn log => urn :: log)
              enabled_config []
              (checkpoint_of {["A"; "B"; "C"]}) (checkpoint_of {["B"; "C"; "D"]})
              {["A"; "B"; "C"]} {["B"; "C"; "D"]} eq_refl eq_refl eq_refl)
    as (_ & _ & _ & _ & H).
  apply (H "A" "B" "C" "D"); done.
Defined.

(** C4: the differ yields no work unit, does not raise and records
    nothing in the report when a precondition is unmet: stale-metadata
    removal not enabled, no previous checkpoint, a previous checkpoint
    without state, or no current checkpoint.  In particular, without a
    previous checkpoint it yields nothing for any current state. *)
Theorem differ_skipped (Report : Type)
    (report_workunit : workunit.MetadataWorkUnit → Report → Report)
    (report_stale_entity_soft_deleted : string → Report → Report)
    (config : pulsar.PulsarSourceConfig) (report : Report)
    (last cur : option pulsar.Checkpoint) :
  stale_removal_enabled config = false
  ∨ last = None
  ∨ (∃ l, last = Some l ∧ pulsar.state l = None)
  ∨ cur = None →
  pulsar.gen_removed_entity_workunits Report report_workunit
    report_stale_entity_soft_deleted config report last cur
  = (report, {| yielded := []; raised := None |})
  ∧ ∀ any_config any_cur,
      pulsar.gen_removed_entity_workunits Report report_workunit
        report_stale_entity_soft_deleted any_config report None any_cur
      = (report, {| yielded := []; raised := None |}).
Proof.
  intros H. split.
  - by apply pulsar_facts.removed_entity_workunits_disabled.
  - intros any_config any_cur.
    apply pulsar_facts.removed_entity_workunits_disabled. right. by left.
Qed.

Lemma differ_skipped_witness :
  pulsar.gen_removed_entity_workunits (list string)
    (fun wu log => workunit.id wu :: log) (fun urn log => urn :: log)
    enabled_config [] None (Some (checkpoint_of {["B"; "C"; "D"]}))
  = ([], {| yielded := []; raised := None |}).
Proof.
  apply (differ_skipped (list string)
           (fun wu log => workunit.id wu :: log) (fun urn log => urn :: log)
           enabled_config [] None (Some (checkpoint_of {["B"; "C"; "D"]}))).
  right. left. reflexivity.
Defined.



(** C8, as amended: the choice between the two emission paths depends
    solely on the name of the handle's class (whether it is exactly
    [DatahubKafkaEmitter]) and not on the [emit] the handle exposes: two
    handles of the same class name are dispatched the same way whatever
    they expose, a handle named [DatahubKafkaEmitter] is sent
    [emit(proposal, callback)], and any other handle [emit(proposal)]. *)
Theorem dispatch_by_class_name (Callback : Type) (p : mcp.MetadataChangeProposalWrapper)
    (e1 e2 : dataprocess_instance.Emitter) (callback : option Callback) :
  dataprocess_instance.type_name e1 = dataprocess_instance.type_name e2 →
  dataprocess_instance._emit_mcp Callback p e1 callback
  = dataprocess_instance._emit_mcp Callback p e2 callback
  ∧ (dataprocess_instance.type_name e1 ≠ "DatahubKafkaEmitter" →
     dataprocess_instance._emit_mcp Callback p e1 callback
     = Ok (dataprocess_instance.emit1 Callback p))
  ∧ (dataprocess_instance.type_name e1 = "DatahubKafkaEmitter" →
     ∀ cb, callback = Some cb →
     dataprocess_instance._emit_mcp Callback p e1 callback
     = Ok (dataprocess_instance.emit2 Callback p cb)).
Proof.
  intros Hname. unfold dataprocess_instance._emit_mcp. rewrite <- Hname.
  split; [done|]. split.
  - intros Hne. apply String.eqb_neq in Hne. by rewrite Hne.
  - intros Heq cb ->. apply String.eqb_eq in Heq. by rewrite Heq.
Qed.

Lemma dispatch_by_class_name_witness :
  dataprocess_instance._emit_mcp nat status_proposal
    {| dataprocess_instance.type_name := "DatahubKafkaEmitter";
       dataprocess_instance.exposes := dataprocess_instance.SyncEmit |} (Some 0)
  = dataprocess_instance._emit_mcp nat status_proposal DatahubKafkaEmitter (Some 0).
Proof.
  exact (proj1 (dispatch_by_class_name nat status_proposal
                  {| dataprocess_instance.type_name := "DatahubKafkaEmitter";
                     dataprocess_instance.exposes := dataprocess_instance.SyncEmit |}
                  DatahubKafkaEmitter (Some 0) eq_refl)).
Defined.

(** C8, as stated, fails: two handles that expose the same asynchronous
    [emit(proposal, callback)] are dispatched differently when only one of
    them is named [DatahubKafkaEmitter]. *)
Lemma dispatch_by_capability_counterexample :
  let renamed :=
    {| dataprocess_instance.type_name := "BufferedKafkaEmitter";
       dataprocess_instance.exposes := dataprocess_instance.AsyncEmit |} in
  dataprocess_instance.exposes renamed = dataprocess_instance.exposes DatahubKafkaEmitter
  ∧ dataprocess_instance._emit_mcp nat status_proposal DatahubKafkaEmitter (Some 0)
    = Ok (dataprocess_instance.emit2 nat status_proposal 0)
  ∧ dataprocess_instance._emit_mcp nat status_proposal renamed (Some 0)
    = Ok (dataprocess_instance.emit1 nat status_proposal)
  ∧ dataprocess_instance._emit_mcp nat status_proposal renamed (Some 0)
    ≠ dataprocess_instance._emit_mcp nat status_proposal DatahubKafkaEmitter (Some 0).
Proof. intros renamed. repeat split; done. Qed.




(** * Further properties of the naming-convention transform *)

Module transform_more.
Import serialization_helper props more_props transform_facts.

Lemma startswith_shorter (s p q : string) :
  startswith s (p +:+ q) = true → startswith s p = true.
Proof.
  revert s. induction p as [|a p IH]; intros s; [done|].
  change (String a p +:+ q) with (String a (p +:+ q)).
  simpl. destruct s as [|b s]; [done|].
  destruct (Ascii.eqb a b); [apply IH|done].
Qed.

#[local] Arguments startswith : simpl never.
#[local] Arguments replace_first : simpl never.

(** Renaming a wire key to the internal namespace and back. *)
Lemma rename_back_and_there (key : string) :
  startswith key "com.linkedin." = true →
  let internal := replace_first "com.linkedin." "com.linkedin.pegasus2avro." key in
  startswith internal "com.linkedin.pegasus2avro." = true ∧
  replace_first "com.linkedin.pegasus2avro." "com.linkedin." internal = key.
Proof.
  intros H internal. subst internal.
  rewrite (replace_first_prefix _ _ _ H).
  split; [apply startswith_app|].
  rewrite replace_first_prefix by apply startswith_app.
  rewrite drop_chars_app. symmetry. by apply startswith_split.
Qed.

Local Notation "'to_wire'" :=
  (fun o => _json_transform o "com.linkedin.pegasus2avro." "com.linkedin.").
Local Notation "'from_wire'" :=
  (fun o => _json_transform o "com.linkedin." "com.linkedin.pegasus2avro.").

Lemma wire_plain_list (l : list json) :
  wire_plain (JList l) = true → forallb wire_plain l = true.
Proof.
  unfold wire_plain. simpl. induction l as [|x l IH]; simpl; [done|].
  rewrite !andb_true_iff. intros [[[H1 H2] [H3 H4]] [H5 H6]].
  split; [done|]. apply IH. by rewrite H2, H4, H6.
Qed.

Lemma wire_plain_dict (d : list (string * json)) :
  wire_plain (JDict d) = true →
  dict_has "fieldDiscriminator" d = false
  ∧ forallb (fun kv => wire_plain kv.2) d = true.
Proof.
  unfold wire_plain. simpl. rewrite !andb_true_iff, negb_true_iff.
  intros [[H1 H2] [Hfd H3]]. split; [done|].
  clear Hfd. induction d as [|kv d IH]; simpl in *; [done|].
  rewrite !andb_true_iff in *.
  destruct H1 as [? ?], H2 as [? ?], H3 as [? ?]. by split; [|apply IH].
Qed.

Lemma wire_plain_not_null (y : json) : wire_plain y = true → is_null y = false.
Proof. by destruct y. Qed.

Lemma each_inverts_back (l : list json) :
  Forall inverts_back l → forallb wire_plain l = true →
  ∃ l', each from_wire l = Ok l' ∧ each to_wire l' = Ok l.
Proof.
  induction 1 as [|y l Hy _ IH]; simpl; [by exists []|].
  rewrite andb_true_iff. intros [Hp Hl].
  destruct (Hy Hp) as (x & Hx & Hback). destruct (IH Hl) as (l' & Hl' & Hlback).
  exists (x :: l'). simpl in *. by rewrite Hx, Hl', Hback, Hlback.
Qed.

Lemma items_inverts_back (d : list (string * json)) :
  Forall (fun kv => inverts_back kv.2) d → forallb (fun kv => wire_plain kv.2) d = true →
  ∃ d', items from_wire d = Ok d' ∧ items to_wire d' = Ok d ∧ dict_keys d' = dict_keys d.
Proof.
  induction 1 as [|[k v] d Hv _ IH]; simpl; [by exists []|].
  rewrite andb_true_iff. intros [Hp Hd].
  destruct (Hv Hp) as (w & Hw & Hback). destruct (IH Hd) as (d' & Hd' & Hdback & Hkeys).
  exists ((k, w) :: d'). simpl in *.
  rewrite (wire_plain_not_null v Hp), Hw, Hd'. simpl.
  rewrite (transform_not_null v w _ _ Hw (wire_plain_not_null v Hp)), Hback, Hdback. simpl.
  unfold dict_keys in *. simpl. by rewrite Hkeys.
Qed.

Lemma roundtrip_inverts_back (y : json) : inverts_back y.
Proof.
  induction y as [|b|n|s|bs|l IH|d IH] using json_nested_ind; unfold inverts_back.
  - done.
  - intros _. by exists (JBool b).
  - intros _. by exists (JNum n).
  - intros _. by exists (JStr s).
  - done.
  - intros Hp. destruct (each_inverts_back l IH (wire_plain_list l Hp)) as (l' & Hl' & Hback).
    exists (JList l'). rewrite !transform_list, Hl'. simpl. by rewrite Hback.
  - intros Hp. destruct (wire_plain_dict d Hp) as [Hfd Hvals].
    assert (Hgeneric :
      match d with
      | [(key, _)] => startswith key "com.linkedin.pegasus2avro." = false
      | _ => True
      end →
      ∃ x, discriminated_or_generic from_wire d = Ok x ∧ to_wire x = Ok (JDict d)).
    { intros Hsingle.
      destruct (items_inverts_back d IH Hvals) as (d' & Hd' & Hback & Hkeys).
      exists (JDict d'). unfold discriminated_or_generic at 1. rewrite Hfd, Hd'.
      split; [done|]. rewrite transform_dict.
      assert (discriminated_or_generic to_wire d' = Ok (JDict d)) as Hgen.
      { unfold discriminated_or_generic.
        unfold dict_has in *. by rewrite Hkeys, Hfd, Hback. }
      destruct d' as [|[k' w] [|]]; try done.
      destruct d as [|[k v] [|]]; try done.
      injection Hkeys as ->. by rewrite Hsingle. }
    rewrite transform_dict.
    destruct d as [|[key value] [|kv d]]; [by apply Hgeneric| |by apply Hgeneric].
    destruct (startswith key "com.linkedin.") eqn:Hwire.
    + apply Forall_cons in IH as [IHv _]. simpl in Hvals.
      rewrite andb_true_r in Hvals. destruct (IHv Hvals) as (x & Hx & Hback).
      destruct (rename_back_and_there key Hwire) as [Hpre Hsame].
      eexists. simpl in Hx. rewrite Hx. split; [done|].
      rewrite transform_dict, Hpre, Hback. simpl. by rewrite Hsame.
    + apply Hgeneric.
      destruct (startswith key "com.linkedin.pegasus2avro.") eqn:Hpre; [|done].
      apply (startswith_shorter key "com.linkedin." "pegasus2avro.") in Hpre. congruence.
Qed.

End transform_more.

Module traversal_facts.
Import serialization_helper props more_props transform_facts.

#[local] Arguments startswith : simpl never.
#[local] Arguments replace_first : simpl never.

Section outputs.
Variable recur : json → result json.
Variable Q : json → bool.

Lemma each_outputs (l l' : list json) :
  Forall (fun x => ∀ o, recur x = Ok o → Q o = true) l →
  each recur l = Ok l' → forallb Q l' = true.
Proof.
  intros Hall. revert l'. induction Hall as [|x l Hx _ IH]; intros l' H; simpl in H.
  - by inversion H.
  - apply bind_ok in H as (o & Ho & H). apply bind_ok in H as (r & Hr & [= <-]).
    simpl. by rewrite (Hx o Ho), (IH r Hr).
Qed.

Lemma items_outputs (d d' : list (string * json)) :
  Forall (fun kv => ∀ o, recur kv.2 = Ok o → Q o = true) d →
  items recur d = Ok d' → forallb (fun kv => Q kv.2) d' = true.
Proof.
  intros Hall. revert d'. induction Hall as [|[k v] d Hv _ IH]; intros d' H; simpl in H.
  - by inversion H.
  - destruct (is_null v); [by apply IH|].
    apply bind_ok in H as (o & Ho & H). apply bind_ok in H as (r & Hr & [= <-]).
    simpl in *. by rewrite (Hv o Ho), (IH r Hr).
Qed.

Lemma subscript_outputs (field : string) (d : list (string * json)) (o : json) :
  Forall (fun kv => ∀ o, recur kv.2 = Ok o → Q o = true) d →
  subscript recur field d = Ok o → Q o = true.
Proof.
  induction 1 as [|[k v] d Hv _ IH]; simpl; [done|].
  destruct (String.eqb k field); [apply Hv|apply IH].
Qed.

Lemma each_length (l l' : list json) :
  each recur l = Ok l' → length l' = length l.
Proof.
  revert l'. induction l as [|x l IH]; intros l' H; simpl in H.
  - by inversion H.
  - apply bind_ok in H as (o & Ho & H). apply bind_ok in H as (r & Hr & [= <-]).
    simpl. by rewrite (IH r Hr).
Qed.

Lemma items_length (d d' : list (string * json)) :
  items recur d = Ok d' → (length d' ≤ length d)%nat.
Proof.
  revert d'. induction d as [|[k v] d IH]; intros d' H; simpl in H.
  - inversion H. done.
  - destruct (is_null v).
    + specialize (IH d' H). simpl. lia.
    + apply bind_ok in H as (o & Ho & H). apply bind_ok in H as (r & Hr & [= <-]).
      specialize (IH r Hr). simpl. lia.
Qed.

Lemma each_returns (l : list json) :
  Forall (fun x => ∃ o, recur x = Ok o) l → ∃ l', each recur l = Ok l'.
Proof.
  induction 1 as [|x l [o Ho] _ [l' IH]]; simpl; [by eexists|].
  rewrite Ho, IH. by eexists.
Qed.

Lemma items_returns (d : list (string * json)) :
  Forall (fun kv => ∃ o, recur kv.2 = Ok o) d → ∃ d', items recur d = Ok d'.
Proof.
  induction 1 as [|[k v] d [o Ho] _ [d' IH]]; simpl; [by eexists|].
  destruct (is_null v); [by eexists|]. simpl in Ho. rewrite Ho, IH. by eexists.
Qed.

Lemma each_raises (l : list json) (e : exn) :
  each recur l = Raise e → ∃ x, x ∈ l ∧ recur x = Raise e.
Proof.
  induction l as [|x l IH]; simpl; [done|]. intros H.
  destruct (recur x) as [o|e'] eqn:Ho; simpl in H.
  - destruct (each recur l) as [r|e'']; simpl in H; [done|].
    destruct IH as (y & Hy & Hr); [congruence|].
    exists y. split; [apply elem_of_cons; by right|done].
  - exists x. split; [apply elem_of_cons; by left|congruence].
Qed.

Lemma subscript_raises (field : string) (d : list (string * json)) (e : exn) :
  subscript recur field d = Raise e →
  e = KeyError ∨ ∃ k v, (k, v) ∈ d ∧ recur v = Raise e.
Proof.
  induction d as [|[k v] d IH]; simpl; [intros [= <-]; by left|].
  destruct (String.eqb k field).
  - intros H. right. exists k, v. split; [apply elem_of_cons; by left|done].
  - intros H. destruct (IH H) as [->|(k' & v' & Hin & Hr)]; [by left|].
    right. exists k', v'. split; [apply elem_of_cons; by right|done].
Qed.

(** [obj[field]] finds what [dict_get] finds. *)
Lemma subscript_dict_get (field : string) (d : list (string * json)) :
  subscript recur field d =
  match dict_get field d with
  | Some v => recur v
  | None => Raise KeyError
  end.
Proof.
  induction d as [|[k v] d IH]; simpl; [done|].
  destruct (String.eqb k field); [done|apply IH].
Qed.
End outputs.

Lemma dict_has_get (k : string) (d : list (string * json)) :
  dict_has k d = true ↔ ∃ v, dict_get k d = Some v.
Proof.
  unfold dict_has, dict_keys. induction d as [|[k' v'] d IH]; simpl.
  - split; [done|]. by intros [v Hv].
  - rewrite (String.eqb_sym k k'). destruct (String.eqb k' k); simpl.
    + split; [intros _; by eexists|done].
    + exact IH.
Qed.

(** The output of the traversal holds no byte sequence. *)
Lemma traversal_no_bytes (x : json) (f t : string) :
  ∀ out, _json_transform x f t = Ok out → no_bytes out = true.
Proof.
  induction x as [|b|n|s|bs|l IH|d IH] using json_nested_ind; intros out H;
    try (by inversion H).
  - simpl in H. apply bind_ok in H as (s & _ & [= <-]). done.
  - rewrite transform_list in H. apply bind_ok in H as (l' & Hl' & [= <-]).
    simpl. by apply (each_outputs (fun o => _json_transform o f t) no_bytes l l' IH).
  - rewrite transform_dict in H.
    assert (discriminated_or_generic (fun o => _json_transform o f t) d = Ok out →
            no_bytes out = true) as Hrest.
    { unfold discriminated_or_generic. intros Hr. destruct (dict_has _ d).
      - destruct (dict_get _ d) as [[| | |field| | |]|]; try done.
        apply bind_ok in Hr as (v & Hv & [= <-]). simpl.
        by rewrite (subscript_outputs (fun o => _json_transform o f t) no_bytes field d v IH Hv).
      - apply bind_ok in Hr as (d' & Hd' & [= <-]). simpl.
        by apply (items_outputs (fun o => _json_transform o f t) no_bytes d d' IH). }
    destruct d as [|[key value] [|]]; try (by apply Hrest).
    destruct (startswith key f); [|by apply Hrest].
    apply bind_ok in H as (v & Hv & [= <-]). simpl.
    apply Forall_cons in IH as [IHv _]. by rewrite (IHv v Hv).
Qed.

Lemma items_without_key (recur : json → result json) (k : string)
    (d d' : list (string * json)) :
  items recur d = Ok d' → dict_has k d = false → dict_has k d' = false.
Proof.
  unfold dict_has, dict_keys.
  revert d'. induction d as [|[key v] d IH]; intros d' H Hk; simpl in H.
  - by inversion H.
  - rewrite fmap_cons in Hk. simpl in Hk. apply orb_false_iff in Hk as [Hkey Hk].
    destruct (is_null v); [by apply IH|].
    apply bind_ok in H as (o & Ho & H). apply bind_ok in H as (r & Hr & [= <-]).
    rewrite fmap_cons. simpl. by rewrite Hkey, (IH r Hr Hk).
Qed.

Lemma forallb_Forall_apply {A : Type} (P : A → Prop) (q : A → bool) (l : list A) :
  Forall (fun x => q x = true → P x) l → forallb q l = true → Forall P l.
Proof.
  induction 1 as [|x l Hx _ IH]; simpl; [constructor|].
  rewrite andb_true_iff. intros [Hq Hl]. constructor; [by apply Hx|by apply IH].
Qed.

(** A structure without nulls is transformed into one without nulls. *)
Lemma traversal_no_nulls (x : json) (f t : string) :
  no_nulls x = true → ∀ out, _json_transform x f t = Ok out → no_nulls out = true.
Proof.
  induction x as [|b|n|s|bs|l IH|d IH] using json_nested_ind; intros Hx out H;
    try (by inversion H).
  - simpl in H. apply bind_ok in H as (s & _ & [= <-]). done.
  - rewrite transform_list in H. apply bind_ok in H as (l' & Hl' & [= <-]).
    simpl in *. apply (each_outputs (fun o => _json_transform o f t) no_nulls l l');
      [|done].
    by apply (forallb_Forall_apply _ no_nulls).
  - simpl in Hx.
    assert (Forall (fun kv => ∀ o, _json_transform kv.2 f t = Ok o → no_nulls o = true) d)
      as Hvals by (by apply (forallb_Forall_apply _ (fun kv => no_nulls kv.2))).
    rewrite transform_dict in H.
    assert (discriminated_or_generic (fun o => _json_transform o f t) d = Ok out →
            no_nulls out = true) as Hrest.
    { unfold discriminated_or_generic. intros Hr. destruct (dict_has _ d).
      - destruct (dict_get _ d) as [[| | |field| | |]|]; try done.
        apply bind_ok in Hr as (v & Hv & [= <-]). simpl.
        by rewrite (subscript_outputs (fun o => _json_transform o f t) no_nulls
                      field d v Hvals Hv).
      - apply bind_ok in Hr as (d' & Hd' & [= <-]). simpl.
        by apply (items_outputs (fun o => _json_transform o f t) no_nulls d d' Hvals). }
    destruct d as [|[key value] [|]]; try (by apply Hrest).
    destruct (startswith key f); [|by apply Hrest].
    apply bind_ok in H as (v & Hv & [= <-]). simpl.
    apply Forall_cons in Hvals as [Hval _]. by rewrite (Hval v Hv).
Qed.

(** A structure without discriminators is transformed into one without
    discriminators, as long as renamed keys cannot be [fieldDiscriminator]. *)
Lemma traversal_no_discriminator (x : json) (f t : string) :
  (∀ r, String.eqb "fieldDiscriminator" (t +:+ r) = false) →
  no_discriminator x = true →
  ∀ out, _json_transform x f t = Ok out → no_discriminator out = true.
Proof.
  intros Ht.
  induction x as [|b|n|s|bs|l IH|d IH] using json_nested_ind; intros Hx out H;
    try (by inversion H).
  - simpl in H. apply bind_ok in H as (s & _ & [= <-]). done.
  - rewrite transform_list in H. apply bind_ok in H as (l' & Hl' & [= <-]).
    simpl in *. apply (each_outputs (fun o => _json_transform o f t) no_discriminator l l');
      [|done].
    by apply (forallb_Forall_apply _ no_discriminator).
  - simpl in Hx. apply andb_true_iff in Hx as [Hfd Hx]. apply negb_true_iff in Hfd.
    assert (Forall (fun kv => ∀ o, _json_transform kv.2 f t = Ok o →
                              no_discriminator o = true) d)
      as Hvals by (by apply (forallb_Forall_apply _ (fun kv => no_discriminator kv.2))).
    rewrite transform_dict in H.
    assert (discriminated_or_generic (fun o => _json_transform o f t) d = Ok out →
            no_discriminator out = true) as Hrest.
    { unfold discriminated_or_generic. rewrite Hfd. intros Hr.
      apply bind_ok in Hr as (d' & Hd' & [= <-]). simpl.
      rewrite (items_without_key _ _ d d' Hd' Hfd). simpl.
      by apply (items_outputs (fun o => _json_transform o f t) no_discriminator
                  d d' Hvals). }
    destruct d as [|[key value] [|]]; try (by apply Hrest).
    destruct (startswith key f) eqn:Hkey; [|by apply Hrest].
    apply bind_ok in H as (v & Hv & [= <-]).
    apply Forall_cons in Hvals as [Hval _].
    cbn [no_discriminator forallb snd]. rewrite (Hval v Hv).
    unfold dict_has, dict_keys. rewrite fmap_cons. cbn [existsb fst fmap list_fmap].
    rewrite (replace_first_prefix _ _ _ Hkey), Ht. done.
Qed.

(** Without discriminators and undecodable bytes the traversal returns. *)
Lemma traversal_returns (x : json) (f t : string) :
  no_discriminator x = true → decodable x = true →
  ∃ out, _json_transform x f t = Ok out.
Proof.
  induction x as [|b|n|s|bs|l IH|d IH] using json_nested_ind; intros Hnd Hdec;
    try (by eexists).
  - simpl. unfold bytes_decode. simpl in Hdec. rewrite Hdec. by eexists.
  - rewrite transform_list.
    destruct (each_returns (fun o => _json_transform o f t) l) as [l' Hl'].
    { simpl in Hnd, Hdec. rewrite forallb_forall in Hnd, Hdec.
      rewrite Forall_forall in IH |- *. intros x Hx.
      apply IH; [done| |]; [apply Hnd|apply Hdec]; by apply list_elem_of_In. }
    rewrite Hl'. by eexists.
  - simpl in Hnd, Hdec. apply andb_true_iff in Hnd as [Hfd Hnd].
    apply negb_true_iff in Hfd.
    assert (Forall (fun kv => ∃ o, _json_transform kv.2 f t = Ok o) d) as Hvals.
    { rewrite forallb_forall in Hnd, Hdec.
      rewrite Forall_forall in IH |- *. intros kv Hkv.
      apply IH; [done| |]; [apply Hnd|apply Hdec]; by apply list_elem_of_In. }
    rewrite transform_dict.
    assert (∃ out, discriminated_or_generic (fun o => _json_transform o f t) d = Ok out)
      as Hrest.
    { unfold discriminated_or_generic. rewrite Hfd.
      destruct (items_returns (fun o => _json_transform o f t) d Hvals) as [d' Hd']. rewrite Hd'. by eexists. }
    destruct d as [|[key value] [|]]; try done.
    destruct (startswith key f); [|done].
    apply Forall_cons in Hvals as [[o Ho] _]. simpl in Ho. rewrite Ho. by eexists.
Qed.

(** Whatever the traversal raises is one of three exceptions. *)
Lemma traversal_raises (x : json) (f t : string) :
  ∀ e, _json_transform x f t = Raise e → traversal_error e = true.
Proof.
  induction x as [|b|n|s|bs|l IH|d IH] using json_nested_ind; intros e H;
    try (by inversion H).
  - simpl in H. unfold bytes_decode in H. destruct (utf8_valid bs); [done|].
    by inversion H.
  - rewrite transform_list in H.
    destruct (each (fun o => _json_transform o f t) l) as [l'|e'] eqn:Hl; [done|].
    simpl in H. inversion H; subst e'.
    apply each_raises in Hl as (x & Hx & Hr).
    rewrite Forall_forall in IH. by apply (IH x Hx).
  - rewrite Forall_forall in IH.
    rewrite transform_dict in H.
    assert (discriminated_or_generic (fun o => _json_transform o f t) d = Raise e →
            traversal_error e = true) as Hrest.
    { unfold discriminated_or_generic. intros Hr. destruct (dict_has _ d).
      - destruct (dict_get _ d) as [[| | |field| | |]|]; try (by inversion Hr).
        destruct (subscript _ field d) as [v|e'] eqn:Hs; [done|].
        simpl in Hr. inversion Hr; subst e'.
        apply subscript_raises in Hs as [->|(k & v & Hin & Hv)]; [done|].
        by apply (IH (k, v) Hin).
      - destruct (items _ d) as [d'|e'] eqn:Hi; [done|].
        simpl in Hr. inversion Hr; subst e'.
        apply null_facts.items_raise in Hi as (k & v & Hin & Hv).
        by apply (IH (k, v) Hin). }
    destruct d as [|[key value] [|]]; try (by apply Hrest).
    destruct (startswith key f); [|by apply Hrest].
    destruct (_json_transform value f t) as [v|e'] eqn:Hv; [done|].
    simpl in H. inversion H; subst e'.
    apply (IH (key, value)); [|done]. apply elem_of_cons. by left.
Qed.

End traversal_facts.

Module proposal_facts.
Import serialization_helper props more_props.

Section with_dumps.
Variable json_dumps : json → string.

Lemma make_generic_aspect_serializes (a : schema_classes.DictWrapper)
    (g : schema_classes.GenericAspectClass) :
  mcp._make_generic_aspect json_dumps a = Ok g → serializes json_dumps a g.
Proof.
  unfold mcp._make_generic_aspect. intros H.
  apply bind_ok in H as (wire & Hwire & [= <-]).
  exists wire. repeat split; try done.
  exact (traversal_facts.traversal_no_bytes _ _ _ wire Hwire).
Qed.

Lemma make_generic_aspect_returns (a : schema_classes.DictWrapper) :
  no_discriminator (schema_classes.to_obj a) = true →
  decodable (schema_classes.to_obj a) = true →
  ∃ g, mcp._make_generic_aspect json_dumps a = Ok g.
Proof.
  intros Hnd Hdec. unfold mcp._make_generic_aspect, pre_json_transform.
  destruct (traversal_facts.traversal_returns (schema_classes.to_obj a)
              "com.linkedin.pegasus2avro." "com.linkedin." Hnd Hdec) as [wire Hwire].
  rewrite Hwire. by eexists.
Qed.

Lemma make_mcp_returns (p : mcp.MetadataChangeProposalWrapper) :
  Forall (fun a => no_discriminator (schema_classes.to_obj a) = true
                   ∧ decodable (schema_classes.to_obj a) = true) (payloads p) →
  ∃ m, mcp.make_mcp json_dumps p = Ok m.
Proof.
  unfold payloads, mcp.make_mcp. intros Hall.
  destruct (mcp.entityKeyAspect p) as [k|], (mcp.aspect p) as [a|]; simpl in Hall.
  - apply Forall_cons in Hall as [[Hk1 Hk2] Hall].
    apply Forall_cons in Hall as [[Ha1 Ha2] _].
    destruct (make_generic_aspect_returns k Hk1 Hk2) as [gk ->].
    destruct (make_generic_aspect_returns a Ha1 Ha2) as [ga ->]. by eexists.
  - apply Forall_cons in Hall as [[Hk1 Hk2] _].
    destruct (make_generic_aspect_returns k Hk1 Hk2) as [gk ->]. by eexists.
  - apply Forall_cons in Hall as [[Ha1 Ha2] _].
    destruct (make_generic_aspect_returns a Ha1 Ha2) as [ga ->]. by eexists.
  - by eexists.
Qed.
End with_dumps.

End proposal_facts.

Module extractor_facts.
Import workunit mce_extractor.

Lemma set_systemMetadata_twice (m : Metadata) (sm : schema_classes.SystemMetadataClass) :
  set_systemMetadata (set_systemMetadata m sm) sm = set_systemMetadata m sm.
Proof. by destruct m. Qed.

End extractor_facts.

Module topic_facts.
Import pulsar more_props.

Section class.
Variable in_class : Ascii.ascii → bool.

Lemma re_split_class_not_empty (s : string) : re_split_class in_class s ≠ [].
Proof.
  induction s as [|c s IH]; simpl; [done|].
  destruct (in_class c); [done|]. by destruct (re_split_class in_class s).
Qed.

(** One more part than there are separators. *)
Lemma re_split_class_length (s : string) :
  length (re_split_class in_class s) = S (count_in_class in_class s).
Proof.
  induction s as [|c s IH]; simpl; [done|].
  destruct (in_class c); simpl; [by rewrite IH|].
  pose proof (re_split_class_not_empty s) as Hne.
  destruct (re_split_class in_class s); [done|]. simpl in *. lia.
Qed.

Lemma free_of_cons (c : Ascii.ascii) (s : string) :
  free_of in_class (String c s) = true → in_class c = false ∧ free_of in_class s = true.
Proof.
  unfold free_of. simpl. destruct (in_class c); simpl; [done|].
  intros H. by split.
Qed.

Lemma re_split_class_free (part : string) :
  free_of in_class part = true → re_split_class in_class part = [part].
Proof.
  induction part as [|c part IH]; [done|]. intros H.
  apply free_of_cons in H as [Hc Hpart]. simpl. by rewrite Hc, (IH Hpart).
Qed.

Lemma re_split_class_cut (part rest : string) (sep : Ascii.ascii) :
  free_of in_class part = true → in_class sep = true →
  re_split_class in_class (part +:+ String sep rest)
  = part :: re_split_class in_class rest.
Proof.
  intros Hpart Hsep. induction part as [|c part IH].
  - simpl. by rewrite Hsep.
  - apply free_of_cons in Hpart as [Hc Hpart].
    change (String c part +:+ String sep rest) with (String c (part +:+ String sep rest)).
    cbn [re_split_class]. by rewrite Hc, (IH Hpart).
Qed.
End class.

Lemma subscript_list_in_range {A : Type} (l : list A) (i : nat) :
  (i < length l)%nat → ∃ x, subscript_list l i = Ok x.
Proof.
  intros H. unfold subscript_list.
  destruct (lookup_lt_is_Some_2 l i H) as [x ->]. by eexists.
Qed.

Lemma subscript_list_out_of_range {A : Type} (l : list A) (i : nat) :
  (length l ≤ i)%nat → subscript_list l i = Raise IndexError.
Proof. intros H. unfold subscript_list. by rewrite (lookup_ge_None_2 l i H). Qed.

End topic_facts.

Module report_facts.
Import workunit pulsar.

Section with_report.
Variable Report : Type.
Variable report_workunit : MetadataWorkUnit → Report → Report.
Variable report_stale_entity_soft_deleted : string → Report → Report.

(** The loop of soft deletes records, for each urn in turn, the work unit
    and then the urn. *)
Lemma soft_delete_each_report (report : Report) (urns : list string) :
  let out :=
    yield_from_each Report
      (fun r u => soft_delete_dataset Report report_workunit
                    report_stale_entity_soft_deleted r u "topic") report urns in
  length (yielded out.2) = length urns
  ∧ out.1 = foldl (fun r uw => report_stale_entity_soft_deleted uw.1
                                 (report_workunit uw.2 r))
              report (zip urns (yielded out.2)).
Proof.
  revert report. induction urns as [|u urns IH]; intros report; [done|].
  cbn [yield_from_each].
  destruct (soft_delete_dataset _ _ _ report u "topic") as [report1 g1] eqn:Hone.
  unfold soft_delete_dataset in Hone. cbn in Hone. inversion Hone; subst report1 g1.
  cbn [raised yielded].
  match goal with |- context [yield_from_each _ _ ?r urns] =>
    specialize (IH r); destruct (yield_from_each _ _ r urns) as [report2 g2]
  end.
  cbn [fst snd yielded raised app length zip zip_with foldl] in *.
  destruct IH as [Hlen Hfold]. split; [by rewrite Hlen|]. exact Hfold.
Qed.
End with_report.

End report_facts.

Module emit_facts.
Import dataprocess_instance more_props.

Section with_transport.
Variable Callback : Type.
Variable transport : list (emit_call Callback) → emit_call Callback → option exn.



Lemma emit_each_without_callback (p : mcp.MetadataChangeProposalWrapper)
    (mcps : list mcp.MetadataChangeProposalWrapper) (emitter : Emitter)
    (before : list (emit_call Callback)) :
  type_name emitter = "DatahubKafkaEmitter" →
  emit_each Callback transport before (p :: mcps) emitter None
  = Generated [] (Some AssertionError).
Proof.
  intros Hname. cbn [emit_each]. unfold _emit_mcp. by rewrite Hname.
Qed.
End with_transport.

End emit_facts.

(** * Further properties *)

Import more_props.

(** X1: the round trip in the other direction.  For every structure with
    no null value, no byte-sequence leaf and no [fieldDiscriminator] key,
    [toWire(fromWire(y))] returns [y]; no condition on the keys is
    needed. *)
Theorem roundtrip_from_wire_identity (y : json) :
  no_nulls y = true → no_bytes y = true → no_discriminator y = true →
  roundtrip_from_wire y = Ok y.
Proof.
  intros Hn Hb Hd.
  destruct (transform_more.roundtrip_inverts_back y) as (x & Hx & Hback).
  { unfold wire_plain. by rewrite Hn, Hb, Hd. }
  unfold roundtrip_from_wire, pre_json_transform, post_json_transform. by rewrite Hx.
Qed.

Lemma roundtrip_from_wire_identity_witness :
  roundtrip_from_wire wire_response_example = Ok wire_response_example.
Proof. apply (roundtrip_from_wire_identity wire_response_example); reflexivity. Defined.

(** X26: the wire form is stable.  For every structure with no null
    value, no [fieldDiscriminator] key and no byte sequence that is not
    UTF-8, [toWire] returns a wire form [w], and on that wire form
    [fromWire] followed by [toWire] is the identity:
    [toWire(fromWire(w)) = w]. *)
Theorem wire_form_is_stable (x : json) :
  no_nulls x = true → no_discriminator x = true → decodable x = true →
  ∃ w, pre_json_transform x = Ok w ∧ roundtrip_from_wire w = Ok w.
Proof.
  intros Hn Hd Hdec.
  destruct (traversal_facts.traversal_returns x
              "com.linkedin.pegasus2avro." "com.linkedin." Hd Hdec) as [w Hw].
  exists w. split; [done|].
  destruct (transform_more.roundtrip_inverts_back w) as (y & Hy & Hback).
  { unfold wire_plain.
    rewrite (traversal_facts.traversal_no_nulls x _ _ Hn w Hw).
    rewrite (traversal_facts.traversal_no_bytes x _ _ w Hw).
    by rewrite (traversal_facts.traversal_no_discriminator x
                  "com.linkedin.pegasus2avro." "com.linkedin." (fun r => eq_refl) Hd w Hw). }
  unfold roundtrip_from_wire, pre_json_transform, post_json_transform. by rewrite Hy.
Qed.

Lemma wire_form_is_stable_witness :
  ∃ w, pre_json_transform blob_example = Ok w ∧ roundtrip_from_wire w = Ok w.
Proof. exact (wire_form_is_stable blob_example eq_refl eq_refl eq_refl). Defined.

(** X2: whatever either direction of the transform returns holds no
    byte-sequence leaf any more, at any depth. *)
Theorem transform_output_has_no_bytes (dir : direction) (x out : json) :
  transform dir x = Ok out → no_bytes out = true.
Proof. destruct dir; apply traversal_facts.traversal_no_bytes. Qed.

Lemma transform_output_has_no_bytes_witness :
  no_bytes (JDict [("value", JStr "{}"); ("contentType", JStr "application/json")]) = true.
Proof. exact (transform_output_has_no_bytes toWire blob_example _ eq_refl). Defined.

(** X3: the transform returns, in either direction, on every structure
    that has no [fieldDiscriminator] key and whose byte-sequence leaves
    are well-formed UTF-8. *)
Theorem transform_returns (dir : direction) (x : json) :
  no_discriminator x = true → decodable x = true →
  ∃ out, transform dir x = Ok out.
Proof. destruct dir; apply traversal_facts.traversal_returns. Qed.

Lemma transform_returns_witness : ∃ out, transform fromWire blob_example = Ok out.
Proof. exact (transform_returns fromWire blob_example eq_refl eq_refl). Defined.

(** X4: when the transform raises, in either direction, the exception is
    a [KeyError], a [TypeError] or a [UnicodeDecodeError]. *)
Theorem transform_raises_only (dir : direction) (x : json) (e : exn) :
  transform dir x = Raise e → traversal_error e = true.
Proof. destruct dir; apply traversal_facts.traversal_raises. Qed.

Lemma transform_raises_only_witness : traversal_error UnicodeDecodeError = true.
Proof.
  exact (transform_raises_only toWire (JList [JBytes [xff]]) UnicodeDecodeError eq_refl).
Defined.

(** X5: the transform keeps the kind of what it is given: a sequence comes
    back as a sequence of the same length, a mapping as a mapping with at
    most as many entries, a byte sequence as its decoded text, and any
    other scalar unchanged. *)
Theorem transform_keeps_shape (dir : direction) (x out : json) :
  transform dir x = Ok out →
  match x with
  | JList l => ∃ l', out = JList l' ∧ length l' = length l
  | JDict d => ∃ d', out = JDict d' ∧ (length d' ≤ length d)%nat
  | JBytes bs => ∃ s, out = JStr s ∧ bytes_decode bs = Ok s
  | _ => out = x
  end.
Proof.
  assert (∀ f t, _json_transform x f t = Ok out →
    match x with
    | JList l => ∃ l', out = JList l' ∧ length l' = length l
    | JDict d => ∃ d', out = JDict d' ∧ (length d' ≤ length d)%nat
    | JBytes bs => ∃ s, out = JStr s ∧ bytes_decode bs = Ok s
    | _ => out = x
    end) as Hany; [|destruct dir; apply Hany].
  intros f t H. destruct x as [|b|n|s|bs|l|d]; try (by inversion H).
  - simpl in H. apply bind_ok in H as (s & Hs & [= <-]). by exists s.
  - rewrite transform_facts.transform_list in H.
    apply bind_ok in H as (l' & Hl' & [= <-]). exists l'. split; [done|].
    exact (traversal_facts.each_length _ l l' Hl').
  - rewrite transform_facts.transform_dict in H.
    assert (discriminated_or_generic (fun o => _json_transform o f t) d = Ok out →
            ∃ d', out = JDict d' ∧ (length d' ≤ length d)%nat) as Hrest.
    { unfold discriminated_or_generic. intros Hr.
      destruct (dict_has "fieldDiscriminator" d) eqn:Hfd.
      - destruct (dict_get _ d) as [[| | |field| | |]|]; try done.
        apply bind_ok in Hr as (v & Hv & [= <-]). eexists. split; [done|].
        destruct d; [done|]. simpl. lia.
      - apply bind_ok in Hr as (d' & Hd' & [= <-]). exists d'. split; [done|].
        exact (traversal_facts.items_length _ d d' Hd'). }
    destruct d as [|[key value] [|]]; try (by apply Hrest).
    destruct (startswith key f); [|by apply Hrest].
    apply bind_ok in H as (v & Hv & [= <-]). eexists. split; [done|]. simpl. lia.
Qed.

Lemma transform_keeps_shape_witness :
  ∃ d', JDict [("owner", JStr "urn:li:corpuser:jdoe"); ("type", JStr "DATAOWNER")] = JDict d'
        ∧ (length d' ≤ length samples.ownership_example)%nat.
Proof.
  exact (transform_keeps_shape toWire (JDict samples.ownership_example) _ eq_refl).
Defined.

(** X6: a mapping with a [fieldDiscriminator] entry is replaced, in either
    direction, by the single entry the discriminator names, with its value
    transformed; every other entry is left out.  When the discriminator
    names no entry the call raises [KeyError], and when it is a sequence or
    a mapping, [TypeError]. *)
Theorem discriminated_union_selected (dir : direction) (d : list (string * json))
    (discriminator : json) :
  dict_get "fieldDiscriminator" d = Some discriminator →
  transform dir (JDict d) =
  match discriminator with
  | JStr field =>
    match dict_get field d with
    | Some v => do v' <- transform dir v; Ok (JDict [(field, v')])
    | None => Raise KeyError
    end
  | JList _ | JDict _ => Raise TypeError
  | _ => Raise KeyError
  end.
Proof.
  intros Hget.
  assert (dict_has "fieldDiscriminator" d = true) as Hhas.
  { apply traversal_facts.dict_has_get. by eexists. }
  assert (∀ f t, match d with
                 | [(key, _)] => startswith key f = false
                 | _ => True
                 end →
          _json_transform (JDict d) f t =
          match discriminator with
          | JStr field =>
            match dict_get field d with
            | Some v => do v' <- _json_transform v f t; Ok (JDict [(field, v')])
            | None => Raise KeyError
            end
          | JList _ | JDict _ => Raise TypeError
          | _ => Raise KeyError
          end) as Hany.
  { intros f t Hsingle. rewrite transform_facts.transform_dict.
    assert (discriminated_or_generic (fun o => _json_transform o f t) d =
            match discriminator with
            | JStr field =>
              match dict_get field d with
              | Some v => do v' <- _json_transform v f t; Ok (JDict [(field, v')])
              | None => Raise KeyError
              end
            | JList _ | JDict _ => Raise TypeError
            | _ => Raise KeyError
            end) as Hrest.
    { unfold discriminated_or_generic. rewrite Hhas, Hget.
      destruct discriminator as [| | |field| | |]; try done.
      rewrite traversal_facts.subscript_dict_get.
      by destruct (dict_get field d). }
    destruct d as [|[key value] [|]]; try done. by rewrite Hsingle. }
  assert (∀ f, startswith "fieldDiscriminator" f = false →
               match d with
               | [(key, _)] => startswith key f = false
               | _ => True
               end) as Hkey.
  { intros f Hf. destruct d as [|[key value] [|]]; try done.
    simpl in Hget. destruct (String.eqb key "fieldDiscriminator") eqn:E; [|done].
    apply String.eqb_eq in E. by subst key. }
  destruct dir; apply Hany; by apply Hkey.
Qed.

Lemma discriminated_union_selected_witness :
  transform toWire (JDict union_example) = Ok (JDict [("cost", JNum 3)]).
Proof. exact (discriminated_union_selected toWire union_example (JStr "cost") eq_refl). Defined.

(** X7: [validate()] returns a boolean, and does not raise, for every
    proposal whose payloads have a structure without [fieldDiscriminator]
    key and without a byte sequence that is not UTF-8. *)
Theorem validate_returns_boolean (json_dumps : json → string)
    (proposal_validate : schema_classes.MetadataChangeProposalClass → bool)
    (p : mcp.MetadataChangeProposalWrapper) :
  Forall (fun a => no_discriminator (schema_classes.to_obj a) = true
                   ∧ decodable (schema_classes.to_obj a) = true) (payloads p) →
  ∃ b, mcp.validate json_dumps proposal_validate p = Ok b.
Proof.
  intros Hall. unfold mcp.validate.
  destruct (proposal_facts.make_mcp_returns json_dumps p Hall) as [m ->]. simpl.
  repeat match goal with |- context [if ?c then _ else _] => destruct c end;
    by eexists.
Qed.

Lemma validate_returns_boolean_witness :
  ∃ b, mcp.validate (fun _ => "{}") (fun _ => true) samples.status_proposal = Ok b.
Proof.
  apply validate_returns_boolean. repeat constructor.
Defined.

(** X8: when [make_mcp()] returns, the generic-encoded form carries one
    serialized aspect per payload of the proposal, key aspect first: its
    bytes are the JSON text of the payload's wire form, which holds no byte
    sequence, and its content type is [application/json].  The identity,
    change type, aspect name, audit header and system metadata are those
    of the proposal. *)
Theorem generic_form_of_proposal (json_dumps : json → string)
    (p : mcp.MetadataChangeProposalWrapper)
    (m : schema_classes.MetadataChangeProposalClass) :
  mcp.make_mcp json_dumps p = Ok m →
  Forall2 (serializes json_dumps) (payloads p) (serialized_aspects m)
  ∧ schema_classes.entityType m = mcp.entityType p
  ∧ schema_classes.entityUrn m = mcp.entityUrn p
  ∧ schema_classes.changeType m = mcp.changeType p
  ∧ schema_classes.aspectName m = mcp.aspectName p
  ∧ schema_classes.auditHeader m = mcp.auditHeader p
  ∧ schema_classes.systemMetadata m = mcp.systemMetadata p.
Proof.
  unfold mcp.make_mcp, payloads, serialized_aspects. intros H.
  apply bind_ok in H as (key & Hkey & H). apply bind_ok in H as (asp & Hasp & [= <-]).
  simpl. split; [|done].
  destruct (mcp.entityKeyAspect p) as [k|], (mcp.aspect p) as [a|].
  - apply bind_ok in Hkey as (gk & Hgk & [= <-]).
    apply bind_ok in Hasp as (ga & Hga & [= <-]).
    repeat constructor; by apply proposal_facts.make_generic_aspect_serializes.
  - apply bind_ok in Hkey as (gk & Hgk & [= <-]). inversion Hasp; subst asp.
    repeat constructor; by apply proposal_facts.make_generic_aspect_serializes.
  - apply bind_ok in Hasp as (ga & Hga & [= <-]). inversion Hkey; subst key.
    repeat constructor; by apply proposal_facts.make_generic_aspect_serializes.
  - inversion Hkey; inversion Hasp; subst. constructor.
Qed.

Lemma generic_form_of_proposal_witness :
  ∃ m, mcp.make_mcp (fun _ => "{}") samples.status_proposal = Ok m
       ∧ Forall2 (serializes (fun _ => "{}")) (payloads samples.status_proposal)
           (serialized_aspects m).
Proof.
  eexists. split; [reflexivity|].
  exact (proj1 (generic_form_of_proposal (fun _ => "{}") samples.status_proposal _ eq_refl)).
Defined.

(** X9: [get_records] yields at most one envelope.  When it does not raise
    it yields exactly one, whose metadata is [{"workunit_id": id}] for the
    id of the unit and whose record is the payload the unit is left with;
    when it raises it has yielded nothing. *)
Theorem extraction_outcome (json_dumps : json → string)
    (proposal_validate : schema_classes.MetadataChangeProposalClass → bool)
    (event_validate : schema_classes.MetadataChangeEvent → bool)
    (render_metadata : workunit.Metadata → string)
    (render_usage : schema_classes.DictWrapper → string) (now : Z)
    (ctx : mce_extractor.PipelineContext) (wu : mce_extractor.WorkUnit) :
  let out :=
    mce_extractor.get_records json_dumps proposal_validate event_validate
      render_metadata render_usage now ctx wu in
  match raised out.2 with
  | None =>
    ∃ envelope id payload,
      yielded out.2 = [envelope]
      ∧ unit_id wu = Some id
      ∧ mce_extractor.envelope_metadata envelope = [("workunit_id", id)]
      ∧ unit_payload out.1 = Some payload
      ∧ mce_extractor.record envelope = payload
  | Some _ => yielded out.2 = []
  end.
Proof.
  destruct wu as [w|w|name]; simpl.
  - destruct (match mce_extractor.set_systemMetadata (workunit.metadata w) _ with
              | workunit.MCE e => _
              | _ => false
              end); [done|].
    destruct (mce_extractor.metadata_validate _ _ _ _) as [[|]|e]; simpl; try done.
    by eexists _, _, _.
  - destruct (schema_classes.validate (workunit.usageStats w)); simpl; [|done].
    by eexists _, _, _.
  - done.
Qed.

(** X10: extracting a work unit again gives the same result: the unit
    that [get_records] leaves behind, passed to [get_records] once more in
    the same run and at the same time, is left unchanged and produces the
    same envelope or the same exception. *)
Theorem extraction_idempotent (json_dumps : json → string)
    (proposal_validate : schema_classes.MetadataChangeProposalClass → bool)
    (event_validate : schema_classes.MetadataChangeEvent → bool)
    (render_metadata : workunit.Metadata → string)
    (render_usage : schema_classes.DictWrapper → string) (now : Z)
    (ctx : mce_extractor.PipelineContext) (wu : mce_extractor.WorkUnit) :
  let extract :=
    mce_extractor.get_records json_dumps proposal_validate event_validate
      render_metadata render_usage now ctx in
  extract (extract wu).1 = extract wu.
Proof.
  destruct wu as [w|w|name]; [|done|done].
  cbv zeta. unfold mce_extractor.get_records at 2. cbn [fst].
  unfold mce_extractor.get_records. cbn [workunit.id workunit.metadata
    workunit.treat_errors_as_warnings].
  by rewrite extractor_facts.set_systemMetadata_twice.
Qed.

(** X11: the soft delete of a stale urn passes through the extractor.
    The work unit [soft_delete_dataset] yields for [urn] is turned by
    [get_records] into exactly one envelope, with metadata
    [{"workunit_id": "soft-delete-topic-" + urn}], provided the schema
    check accepts its generic-encoded form: an UPSERT of the [status]
    aspect of the dataset [urn] whose value is the JSON text of
    [{"removed": true}], stamped with the time and the run id. *)
Theorem soft_delete_is_extracted (Report : Type)
    (report_workunit : workunit.MetadataWorkUnit → Report → Report)
    (report_stale_entity_soft_deleted : string → Report → Report)
    (json_dumps : json → string)
    (proposal_validate : schema_classes.MetadataChangeProposalClass → bool)
    (event_validate : schema_classes.MetadataChangeEvent → bool)
    (render_metadata : workunit.Metadata → string)
    (render_usage : schema_classes.DictWrapper → string) (now : Z)
    (ctx : mce_extractor.PipelineContext) (report : Report) (urn : string) :
  proposal_validate
    (soft_delete_generic_form json_dumps urn
       {| schema_classes.lastObserved := now;
          schema_classes.runId := mce_extractor.run_id ctx |}) = true →
  ∃ wu envelope,
    (pulsar.soft_delete_dataset Report report_workunit report_stale_entity_soft_deleted
       report urn "topic").2 = Generated [wu] None
    ∧ (mce_extractor.get_records json_dumps proposal_validate event_validate
         render_metadata render_usage now ctx (mce_extractor.IsMetadataWorkUnit wu)).2
      = Generated [envelope] None
    ∧ mce_extractor.envelope_metadata envelope
      = [("workunit_id", "soft-delete-topic-" +:+ urn)].
Proof.
  intros Hvalid. eexists _, _. split; [reflexivity|].
  unfold mce_extractor.get_records. cbn [workunit.metadata workunit.id snd
    mce_extractor.set_systemMetadata].
  unfold mce_extractor.metadata_validate, mcp.validate. cbn.
  unfold soft_delete_generic_form in Hvalid. cbn in Hvalid.
  unfold schema_classes.ChangeTypeClass_UPSERT.
  rewrite Hvalid. cbn. split; reflexivity.
Qed.

Lemma soft_delete_is_extracted_witness :
  ∃ wu envelope,
    (pulsar.soft_delete_dataset (list string)
       (fun wu log => workunit.id wu :: log) (fun urn log => urn :: log)
       [] "urn:li:dataset:orders" "topic").2 = Generated [wu] None
    ∧ (mce_extractor.get_records (fun _ => "{}") (fun _ => true) (fun _ => true)
         (fun _ => "") (fun _ => "") 1650000000000
         {| mce_extractor.run_id := "run"; mce_extractor.pipeline_name := None |}
         (mce_extractor.IsMetadataWorkUnit wu)).2
      = Generated [envelope] None
    ∧ mce_extractor.envelope_metadata envelope
      = [("workunit_id", "soft-delete-topic-urn:li:dataset:orders")].
Proof.
  exact (soft_delete_is_extracted (list string)
           (fun wu log => workunit.id wu :: log) (fun urn log => urn :: log)
           (fun _ => "{}") (fun _ => true) (fun _ => true)
           (fun _ => "") (fun _ => "") 1650000000000
           {| mce_extractor.run_id := "run"; mce_extractor.pipeline_name := None |}
           [] "urn:li:dataset:orders" eq_refl).
Defined.

(** X12: [is_checkpointing_enabled] answers false for every job id and
    every configuration: the job id, a string, is compared with the value
    of the whole [and] chain, which is a boolean or [None]. *)
Theorem checkpointing_never_enabled (is_stateful_ingestion_configured : bool)
    (config : pulsar.PulsarSourceConfig) (job_id : string) :
  pulsar.is_checkpointing_enabled is_stateful_ingestion_configured config job_id = false.
Proof.
  unfold pulsar.is_checkpointing_enabled.
  destruct is_stateful_ingestion_configured,
    (pulsar.stateful_ingestion config) as [[enabled remove]|]; reflexivity.
Qed.

(** X13: a topic name [type://tenant/namespace/topic] whose four
    components contain none of [":"], [" "] and ["/"] is parsed back into
    exactly those components, and [fullname] is the whole name. *)
Theorem topic_components_recovered (type tenant namespace topic : string) :
  free_of pulsar.topic_separator type = true →
  free_of pulsar.topic_separator tenant = true →
  free_of pulsar.topic_separator namespace = true →
  free_of pulsar.topic_separator topic = true →
  let name := type +:+ "://" +:+ tenant +:+ "/" +:+ namespace +:+ "/" +:+ topic in
  pulsar.PulsarTopic__init__ name =
  Ok {| pulsar.fullname := name; pulsar.type := type; pulsar.tenant := tenant;
        pulsar.namespace := namespace; pulsar.topic := topic |}.
Proof.
  intros Htype Htenant Hns Htopic name. unfold pulsar.PulsarTopic__init__.
  assert (re_split_class pulsar.topic_separator name
          = [type; ""; ""; tenant; namespace; topic]) as ->; [|done].
  subst name.
  change (type +:+ "://" +:+ tenant +:+ "/" +:+ namespace +:+ "/" +:+ topic)
    with (type +:+ String ":" ("" +:+ String "/" ("" +:+ String "/"
            (tenant +:+ String "/" (namespace +:+ String "/" topic))))).
  rewrite !topic_facts.re_split_class_cut by done.
  by rewrite topic_facts.re_split_class_free.
Qed.

Lemma topic_components_recovered_witness :
  pulsar.PulsarTopic__init__ "persistent://public/default/orders" =
  Ok {| pulsar.fullname := "persistent://public/default/orders";
        pulsar.type := "persistent"; pulsar.tenant := "public";
        pulsar.namespace := "default"; pulsar.topic := "orders" |}.
Proof.
  exact (topic_components_recovered "persistent" "public" "default" "orders"
           eq_refl eq_refl eq_refl eq_refl).
Defined.

(** X14: [PulsarTopic(topic)] raises [IndexError] exactly when the name
    holds fewer than five characters among [":"], [" "] and ["/"];
    otherwise it returns a topic whose [fullname] is the name given. *)
Theorem topic_needs_five_separators (name : string) :
  if (count_in_class pulsar.topic_separator name <? 5)%nat
  then pulsar.PulsarTopic__init__ name = Raise IndexError
  else ∃ t, pulsar.PulsarTopic__init__ name = Ok t ∧ pulsar.fullname t = name.
Proof.
  unfold pulsar.PulsarTopic__init__.
  pose proof (topic_facts.re_split_class_length pulsar.topic_separator name) as Hlen.
  set (parts := re_split_class pulsar.topic_separator name) in *.
  destruct (topic_facts.subscript_list_in_range parts 0) as [p0 H0]; [lia|].
  rewrite H0. cbn [bind].
  destruct (count_in_class pulsar.topic_separator name <? 5)%nat eqn:Hcount.
  - apply Nat.ltb_lt in Hcount.
    destruct (decide (3 < length parts)%nat) as [H3|H3].
    + destruct (topic_facts.subscript_list_in_range parts 3 H3) as [p3 ->]. cbn [bind].
      destruct (decide (4 < length parts)%nat) as [H4|H4].
      * destruct (topic_facts.subscript_list_in_range parts 4 H4) as [p4 ->]. cbn [bind].
        rewrite topic_facts.subscript_list_out_of_range by lia. done.
      * rewrite topic_facts.subscript_list_out_of_range by lia. done.
    + rewrite topic_facts.subscript_list_out_of_range by lia. done.
  - apply Nat.ltb_ge in Hcount.
    destruct (topic_facts.subscript_list_in_range parts 3) as [p3 ->]; [lia|].
    destruct (topic_facts.subscript_list_in_range parts 4) as [p4 ->]; [lia|].
    destruct (topic_facts.subscript_list_in_range parts 5) as [p5 ->]; [lia|].
    cbn [bind]. by eexists.
Qed.

(** X15: a checkpoint is created for the default ingestion job only, with
    the identity of the run and empty state; so when the differ compares a
    previous state with a checkpoint just created, it retracts every urn
    of the previous state. *)
Theorem fresh_checkpoint_retracts_all (Report : Type)
    (report_workunit : workunit.MetadataWorkUnit → Report → Report)
    (report_stale_entity_soft_deleted : string → Report → Report)
    (ctx : mce_extractor.PipelineContext) (config : pulsar.PulsarSourceConfig)
    (report : Report) (job_id : string) (last cur : pulsar.Checkpoint)
    (P : gset string) :
  stale_removal_enabled config = true →
  pulsar.state last = Some {| pulsar.topic_urns := P |} →
  pulsar.create_checkpoint ctx config job_id = Ok (Some cur) →
  let g := (pulsar.gen_removed_entity_workunits Report report_workunit
              report_stale_entity_soft_deleted config report (Some last) (Some cur)).2 in
  job_id = "ingest_from_pulsar_source"
  ∧ pulsar.job_name cur = job_id
  ∧ mce_extractor.pipeline_name ctx = Some (pulsar.pipeline_name cur)
  ∧ pulsar.platform_instance config = Some (pulsar.platform_instance_id cur)
  ∧ pulsar.run_id cur = mce_extractor.run_id ctx
  ∧ raised g = None
  ∧ Forall2 is_retraction_of (elements P) (yielded g).
Proof.
  intros Hon Hlast Hcreate g. unfold pulsar.create_checkpoint in Hcreate.
  destruct (mce_extractor.pipeline_name ctx) as [pipeline|]; [|done].
  destruct (String.eqb job_id pulsar.get_default_ingestion_job_id) eqn:Hjob; [|done].
  apply String.eqb_eq in Hjob.
  unfold pulsar.get_platform_instance_id in Hcreate.
  destruct (pulsar.platform_instance config) as [instance|]; [|done].
  simpl in Hcreate. injection Hcreate as Hcur.
  assert (pulsar.state cur = Some pulsar.KafkaCheckpointState__init__) as Hstate
    by (by rewrite <- Hcur).
  split; [exact Hjob|].
  do 4 (split; [by rewrite <- Hcur|]).
  subst g.
  rewrite (pulsar_facts.removed_entity_workunits_enabled _ _ _ config report last cur
             _ _ Hon Hlast Hstate).
  cbn [pulsar.topic_urns pulsar.KafkaCheckpointState__init__].
  rewrite difference_empty_L.
  apply pulsar_facts.soft_delete_each.
Qed.

Lemma fresh_checkpoint_retracts_all_witness :
  Forall2 is_retraction_of (elements ({["A"; "B"]} : gset string))
    (yielded
       (pulsar.gen_removed_entity_workunits (list string)
          (fun wu log => workunit.id wu :: log) (fun urn log => urn :: log)
          samples.enabled_config []
          (Some (samples.checkpoint_of {["A"; "B"]}))
          (Some (samples.checkpoint_of ∅))).2).
Proof.
  exact (proj2 (proj2 (proj2 (proj2 (proj2 (proj2
    (fresh_checkpoint_retracts_all (list string)
       (fun wu log => workunit.id wu :: log) (fun urn log => urn :: log)
       {| mce_extractor.run_id := "run";
          mce_extractor.pipeline_name := Some "pulsar_pipeline" |}
       samples.enabled_config [] "ingest_from_pulsar_source"
       (samples.checkpoint_of {["A"; "B"]}) (samples.checkpoint_of ∅) {["A"; "B"]}
       eq_refl eq_refl eq_refl))))))).
Defined.

(** X16: when the differ runs, the report it leaves records, for each
    stale urn in turn, first the work unit and then the soft-deleted urn,
    for the work units yielded and for no other. *)
Theorem differ_reports_each_unit (Report : Type)
    (report_workunit : workunit.MetadataWorkUnit → Report → Report)
    (report_stale_entity_soft_deleted : string → Report → Report)
    (config : pulsar.PulsarSourceConfig) (report : Report)
    (last cur : pulsar.Checkpoint) (P C : gset string) :
  stale_removal_enabled config = true →
  pulsar.state last = Some {| pulsar.topic_urns := P |} →
  pulsar.state cur = Some {| pulsar.topic_urns := C |} →
  let out := pulsar.gen_removed_entity_workunits Report report_workunit
               report_stale_entity_soft_deleted config report (Some last) (Some cur) in
  length (yielded out.2) = size (P ∖ C)
  ∧ out.1 = foldl (fun r uw => report_stale_entity_soft_deleted uw.1
                                 (report_workunit uw.2 r))
              report (zip (elements (P ∖ C)) (yielded out.2)).
Proof.
  intros Hon Hlast Hcur out. subst out.
  rewrite (pulsar_facts.removed_entity_workunits_enabled _ _ _ config report last cur
             _ _ Hon Hlast Hcur).
  cbn [pulsar.topic_urns].
  destruct (report_facts.soft_delete_each_report Report report_workunit
              report_stale_entity_soft_deleted report (elements (P ∖ C))) as [Hlen Hfold].
  split; [|exact Hfold]. rewrite Hlen. reflexivity.
Qed.

Lemma differ_reports_each_unit_witness :
  (pulsar.gen_removed_entity_workunits (list string)
     (fun wu log => workunit.id wu :: log) (fun urn log => urn :: log)
     samples.enabled_config []
     (Some (samples.checkpoint_of {["A"; "B"; "C"]}))
     (Some (samples.checkpoint_of {["B"; "C"; "D"]}))).1
  = ["A"; "soft-delete-topic-A"].
Proof.
  rewrite (proj2 (differ_reports_each_unit (list string)
     (fun wu log => workunit.id wu :: log) (fun urn log => urn :: log)
     samples.enabled_config []
     (samples.checkpoint_of {["A"; "B"; "C"]}) (samples.checkpoint_of {["B"; "C"; "D"]})
     {["A"; "B"; "C"]} {["B"; "C"; "D"]} eq_refl eq_refl eq_refl)).
  vm_compute. reflexivity.
Defined.


(** X18: [generate_mcp] produces its proposals in a fixed order: the
    properties aspect, the relationships aspect, the input aspect when
    there are inlets, the output aspect when there are outlets, and then
    one [status] proposal per inlet and per outlet, for the datasets in
    the order inlets, outlets, each with [removed = false]. *)
Theorem generated_proposals_order (now_millis : Z)
    (Properties : string → Z → string → string → list (string * string) →
                  option string → schema_classes.DictWrapper)
    (Relationships : list string → option string → option string →
                     schema_classes.DictWrapper)
    (Input Output : list string → schema_classes.DictWrapper)
    (self : dataprocess_instance.DataProcessInstance) :
  let generated :=
    dataprocess_instance.generate_mcp now_millis Properties Relationships Input Output
      self in
  let iolets :=
    (dataprocess_instance.inlets self ++ dataprocess_instance.outlets self)%list in
  let aspects :=
    (["dataProcessInstanceProperties"; "dataProcessInstanceRelationships"]
     ++ (if dataprocess_instance.inlets self is [] then []
         else ["dataProcessInstanceInput"])
     ++ (if dataprocess_instance.outlets self is [] then []
         else ["dataProcessInstanceOutput"]))%list in
  aspect_name_of <$> generated = (aspects ++ replicate (length iolets) "status")%list
  ∧ mcp.entityUrn <$> drop (length aspects) generated = Some <$> iolets
  ∧ Forall (fun p => mcp.aspect p = Some (schema_classes.StatusClass false)
                     ∧ mcp.entityType p = "dataset")
      (drop (length aspects) generated).
Proof.
  cbv zeta.
  unfold dataprocess_instance.generate_mcp, dataprocess_instance.generate_inlet_outlet_mcp.
  generalize (dataprocess_instance.inlets self ++ dataprocess_instance.outlets self)%list.
  intros iolets.
  assert (∀ l : list string,
    aspect_name_of <$>
      ((fun iolet => dataprocess_instance.proposal "dataset" iolet "status"
                       (schema_classes.StatusClass false)) <$> l)
    = replicate (length l) "status") as Hnames.
  { induction l as [|x l IH]; [done|]. rewrite !fmap_cons, IH. done. }
  assert (∀ l : list string,
    mcp.entityUrn <$>
      ((fun iolet => dataprocess_instance.proposal "dataset" iolet "status"
                       (schema_classes.StatusClass false)) <$> l)
    = Some <$> l) as Hurns.
  { induction l as [|x l IH]; [done|]. rewrite !fmap_cons, IH. done. }
  assert (∀ l : list string,
    Forall (fun p => mcp.aspect p = Some (schema_classes.StatusClass false)
                     ∧ mcp.entityType p = "dataset")
      ((fun iolet => dataprocess_instance.proposal "dataset" iolet "status"
                       (schema_classes.StatusClass false)) <$> l)) as Hstatus.
  { intros l. apply Forall_fmap, Forall_forall. by intros x _. }
  destruct (dataprocess_instance.inlets self), (dataprocess_instance.outlets self);
    cbn [dataprocess_instance.non_empty app length drop fmap list_fmap];
    rewrite ?Hnames; (split; [done|]); split; [apply Hurns|apply Hstatus| apply Hurns
      |apply Hstatus|apply Hurns|apply Hstatus|apply Hurns|apply Hstatus].
Qed.

(** X19: [emit] and [emit_process_end] on an emitter of class
    [DatahubKafkaEmitter] without a callback raise [AssertionError] before
    any call is made on the emitter, whatever the instance. *)
Theorem emit_without_callback (Callback : Type) (now_millis : Z)
    (Properties : string → Z → string → string → list (string * string) →
                  option string → schema_classes.DictWrapper)
    (Relationships : list string → option string → option string →
                     schema_classes.DictWrapper)
    (Input Output : list string → schema_classes.DictWrapper)
    (RunEvent : string → Z → option (string * string) → option Z →
                schema_classes.DictWrapper)
    (transport : list (dataprocess_instance.emit_call Callback) →
                 dataprocess_instance.emit_call Callback → option exn)
    (before : list (dataprocess_instance.emit_call Callback))
    (self : dataprocess_instance.DataProcessInstance)
    (emitter : dataprocess_instance.Emitter)
    (end_timestamp_millis : Z) (result : string) (result_type : option string)
    (attempt : option Z) :
  dataprocess_instance.type_name emitter = "DatahubKafkaEmitter" →
  dataprocess_instance.emit Callback now_millis Properties Relationships Input Output
    transport before self emitter None
  = Generated [] (Some AssertionError)
  ∧ dataprocess_instance.emit_process_end Callback RunEvent transport before self emitter
      end_timestamp_millis result result_type attempt None
    = Generated [] (Some AssertionError).
Proof.
  intros Hname. split.
  - unfold dataprocess_instance.emit, dataprocess_instance.generate_mcp.
    by apply emit_facts.emit_each_without_callback.
  - unfold dataprocess_instance.emit_process_end, dataprocess_instance.end_event_mcp.
    by apply emit_facts.emit_each_without_callback.
Qed.

Lemma emit_without_callback_witness :
  dataprocess_instance.emit nat 0 (fun _ _ _ _ _ _ => any_aspect)
    (fun _ _ _ => any_aspect) (fun _ => any_aspect) (fun _ => any_aspect)
    (fun _ _ => None) [] run_instance_example DatahubKafkaEmitter None
  = Generated [] (Some AssertionError).
Proof.
  exact (proj1 (emit_without_callback nat 0 (fun _ _ _ _ _ _ => any_aspect)
           (fun _ _ _ => any_aspect) (fun _ => any_aspect) (fun _ => any_aspect)
           (fun _ _ _ _ => any_aspect)
           (fun _ _ => None) [] run_instance_example DatahubKafkaEmitter
           0 "SUCCESS" None None eq_refl)).
Defined.


(** X21: [_guess_entity_type] raises [AssertionError] exactly for the urns
    that do not start with [urn:li:]; for every other urn it returns the
    third colon-separated component, and it never raises [IndexError]. *)
Theorem entity_type_guessed (urn : string) :
  if startswith urn "urn:li:"
  then ∃ entity, client._guess_entity_type urn = Ok entity
                 ∧ split ":" urn !! 2%nat = Some entity
  else client._guess_entity_type urn = Raise AssertionError.
Proof.
  destruct (startswith urn "urn:li:") eqn:H.
  - by apply client_facts.guess_entity_type_urn_li.
  - by apply client_facts.guess_entity_type_not_urn_li.
Qed.

(** X22: for a urn [urn:li:<type>:<id>] whose type holds no colon,
    [_guess_entity_type] returns the type, whatever the id (which may hold
    colons itself); and for [urn:li:<type>] without an id, the type. *)
Theorem entity_type_of_urn (entity_type id : string) :
  colon_free entity_type = true →
  client._guess_entity_type ("urn:li:" +:+ entity_type +:+ ":" +:+ id) = Ok entity_type
  ∧ client._guess_entity_type ("urn:li:" +:+ entity_type) = Ok entity_type.
Proof.
  intros Hfree. unfold client._guess_entity_type.
  rewrite !startswith_app. cbn [negb]. cbv iota.
  rewrite !client_facts.split_urn_li.
  rewrite client_facts.split_until_colon by done. split; [done|].
  assert (split ":" entity_type = [entity_type]) as ->; [|done].
  clear id. induction entity_type as [|c t IH]; [done|].
  simpl in Hfree. apply andb_true_iff in Hfree as [Hc Ht].
  apply negb_true_iff in Hc. cbn [split]. by rewrite Hc, (IH Ht).
Qed.

Lemma entity_type_of_urn_witness :
  client._guess_entity_type "urn:li:dataset:(urn:li:dataPlatform:pulsar,orders,PROD)"
  = Ok "dataset".
Proof.
  exact (proj1 (entity_type_of_urn "dataset" "(urn:li:dataPlatform:pulsar,orders,PROD)"
                  eq_refl)).
Defined.

(** X23: when the response carries more than one value,
    [get_latest_timeseries_value] raises [AssertionError]; it never picks
    one of them. *)
Theorem several_values_rejected (_post_generic : string → json → result json)
    (from_json_text : json → result schema_classes.DictWrapper)
    (render_failure : json → string)
    (config : client.DatahubClientConfig) (u a : string)
    (filter_map : list (string * string)) (body resp : json) (values : list json) :
  client.query_body u a filter_map = Ok body →
  _post_generic (client.end_point config) body = Ok resp →
  response_values resp = Ok (JList values) →
  (2 ≤ length values)%nat →
  client.get_latest_timeseries_value _post_generic from_json_text render_failure
    config u a filter_map = Raise AssertionError.
Proof.
  intros Hbody Hresp Hvalues Hlen. unfold client.get_latest_timeseries_value.
  rewrite Hbody. cbn [bind]. rewrite Hresp. cbn [bind].
  unfold response_values in Hvalues.
  destruct (py_get resp "value" (JDict [])) as [value|]; [|done]. cbn [bind] in *.
  rewrite Hvalues. cbn [bind].
  destruct values as [|v1 [|v2 values]]; simpl in Hlen; try lia. reflexivity.
Qed.

Lemma several_values_rejected_witness :
  client.get_latest_timeseries_value
    (fun _ _ => Ok (response_with [value_with_aspect "{}"; value_with_aspect "{}"]))
    (fun _ => Ok any_aspect) (fun _ => "") local_server
    samples.checkpoint_job_urn "datahubIngestionCheckpoint" checkpoint_filter
  = Raise AssertionError.
Proof.
  exact (several_values_rejected
           (fun _ _ => Ok (response_with [value_with_aspect "{}"; value_with_aspect "{}"]))
           (fun _ => Ok any_aspect) (fun _ => "") local_server
           samples.checkpoint_job_urn "datahubIngestionCheckpoint" checkpoint_filter
           _ _ [value_with_aspect "{}"; value_with_aspect "{}"]
           eq_refl eq_refl eq_refl (le_n 2)).
Defined.

(** X24: when the response carries exactly one value,
    [get_latest_timeseries_value] returns the aspect read from the
    serialized text of that value; when the value has no serialized aspect
    (it is missing, null or empty) it raises an [OperationalError] rather
    than returning none. *)
Theorem single_value_decoded (_post_generic : string → json → result json)
    (from_json_text : json → result schema_classes.DictWrapper)
    (render_failure : json → string)
    (config : client.DatahubClientConfig) (u a : string)
    (filter_map : list (string * string)) (body resp value aspect_json : json) :
  client.query_body u a filter_map = Ok body →
  _post_generic (client.end_point config) body = Ok resp →
  response_values resp = Ok (JList [value]) →
  value_aspect_json value = Ok aspect_json →
  client.get_latest_timeseries_value _post_generic from_json_text render_failure
    config u a filter_map
  = if py_truthy aspect_json
    then do aspect <- from_json_text aspect_json; Ok (Some aspect)
    else Raise (OperationalError (render_failure aspect_json)).
Proof.
  intros Hbody Hresp Hvalues Hjson. unfold client.get_latest_timeseries_value.
  rewrite Hbody. cbn [bind]. rewrite Hresp. cbn [bind].
  unfold response_values in Hvalues.
  destruct (py_get resp "value" (JDict [])) as [v|]; [|done]. cbn [bind] in *.
  rewrite Hvalues. cbn [bind py_truthy py_len length Nat.eqb negb py_first_get].
  unfold value_aspect_json in Hjson.
  destruct (py_get value "aspect" (JDict [])) as [asp|]; [|done]. cbn [bind] in *.
  by rewrite Hjson.
Qed.

Lemma single_value_decoded_witness :
  client.get_latest_timeseries_value
    (fun _ _ => Ok (response_with [value_with_aspect "{}"]))
    (fun _ => Ok any_aspect) (fun _ => "") local_server
    samples.checkpoint_job_urn "datahubIngestionCheckpoint" checkpoint_filter
  = Ok (Some any_aspect).
Proof.
  exact (single_value_decoded
           (fun _ _ => Ok (response_with [value_with_aspect "{}"]))
           (fun _ => Ok any_aspect) (fun _ => "") local_server
           samples.checkpoint_job_urn "datahubIngestionCheckpoint" checkpoint_filter
           _ _ (value_with_aspect "{}") (JStr "{}")
           eq_refl eq_refl eq_refl eq_refl).
Defined.

(** X25: for a urn that does not start with [urn:li:],
    [get_latest_timeseries_value] raises [AssertionError] whatever the
    transport would answer: the request is not sent. *)
Theorem malformed_urn_not_queried (_post_generic : string → json → result json)
    (from_json_text : json → result schema_classes.DictWrapper)
    (render_failure : json → string)
    (config : client.DatahubClientConfig) (u a : string)
    (filter_map : list (string * string)) :
  startswith u "urn:li:" = false →
  client.get_latest_timeseries_value _post_generic from_json_text render_failure
    config u a filter_map = Raise AssertionError.
Proof.
  intros H. unfold client.get_latest_timeseries_value, client.query_body.
  by rewrite (client_facts.guess_entity_type_not_urn_li u H).
Qed.

Lemma malformed_urn_not_queried_witness :
  client.get_latest_timeseries_value
    (fun _ _ => Ok (response_with [value_with_aspect "{}"]))
    (fun _ => Ok any_aspect) (fun _ => "") local_server
    "dataJob:ingest_from_pulsar_source" "datahubIngestionCheckpoint" checkpoint_filter
  = Raise AssertionError.
Proof.
  exact (malformed_urn_not_queried
           (fun _ _ => Ok (response_with [value_with_aspect "{}"]))
           (fun _ => Ok any_aspect) (fun _ => "") local_server
           "dataJob:ingest_from_pulsar_source" "datahubIngestionCheckpoint"
           checkpoint_filter eq_refl).
Defined.
